(** * cloudflare-kv-cache: a memoizing wrapper over a key-value store

    Shallow embedding of [src/CloudflareKVCache.js] and of the fake store of
    its test suite, followed by the properties of the wrapper.

    JavaScript values are an inductive type, exceptions are an explicit
    result type, and the [async] functions of the source, which run one
    [await] after the other, are computations of a state-and-error monad
    over the world they can change: the closure variable [runtimeCache],
    the state of the bound store, and a journal of the external calls the
    wrapper makes. *)

From Stdlib Require Import ZArith QArith Qcanon Qround Lia DecimalString.
From stdpp Require Import base option strings list gmap.

Local Open Scope Z_scope.
Local Open Scope string_scope.
Local Open Scope list_scope.

(** ** JavaScript values *)

(** A number is NaN, an infinity, or a finite value.  Finite doubles are
    rationals, and comparison and [Math.floor] on them are exact, so a
    finite number is a canonical rational.  The negative zero behaves as
    zero in every operation of this file. *)
Inductive number :=
  | NaN
  | PosInf
  | NegInf
  | Fin (q : Qc).

(** Data values.  Callable values are kept apart (see [slot]). *)
#[warnings="-register-all"]
Inductive value :=
  | VUndefined
  | VNull
  | VBool (b : bool)
  | VNum (n : number)
  | VStr (s : string)
  | VArr (items : list value)
  | VObj (props : list (string * value)).

Definition num (z : Z) : value := VNum (Fin (Qc_of_Z z)).

(** What a [throw] carries: the [TypeError] of [assert], or anything else
    (the [SyntaxError] of [JSON.parse], an [Error] of the store). *)
Inductive exn :=
  | TypeError (message : string)
  | OtherError (message : string).

(** The outcome of evaluating a call. *)
Inductive completion (A : Type) :=
  | Normal (a : A)
  | Throw (e : exn).
Arguments Normal {A} a.
Arguments Throw {A} e.

#[global] Instance completion_ret : MRet completion := @Normal.
#[global] Instance completion_bind : MBind completion :=
  fun A B f c => match c with Normal a => f a | Throw e => Throw e end.

Definition is_TypeError {A} (c : completion A) : bool :=
  match c with Throw (TypeError _) => true | _ => false end.

Definition is_Normal {A} (c : completion A) : bool :=
  match c with Normal _ => true | Throw _ => false end.

(** [function assert (condition, message)] *)
Definition assert (condition : bool) (message : string) : completion unit :=
  if negb condition then Throw (TypeError message) else Normal tt.

(** A property of an options object: absent, a data value, or a function
    (of type [F], the role the option gives it). *)
Inductive slot (F : Type) :=
  | Absent
  | Val (v : value)
  | Callable (f : F).
Arguments Absent {F}.
Arguments Val {F} v.
Arguments Callable {F} f.

(** ToBoolean. *)
Definition truthy_number (n : number) : bool :=
  match n with
  | NaN => false
  | PosInf | NegInf => true
  | Fin q => negb (Qeq_bool q (inject_Z 0))
  end.

Definition truthy (v : value) : bool :=
  match v with
  | VUndefined | VNull => false
  | VBool b => b
  | VNum n => truthy_number n
  | VStr s => negb (String.eqb s "")
  | VArr _ | VObj _ => true
  end.

Definition truthy_slot {F} (x : slot F) : bool :=
  match x with
  | Absent => false
  | Val v => truthy v
  | Callable _ => true
  end.

(** [a || b] *)
Definition or_else {F} (a b : slot F) : slot F :=
  if truthy_slot a then a else b.

(** [typeof x] *)
Definition typeof (v : value) : string :=
  match v with
  | VUndefined => "undefined"
  | VNull => "object"
  | VBool _ => "boolean"
  | VNum _ => "number"
  | VStr _ => "string"
  | VArr _ | VObj _ => "object"
  end.

Definition typeof_slot {F} (x : slot F) : string :=
  match x with
  | Absent => "undefined"
  | Val v => typeof v
  | Callable _ => "function"
  end.

(** [Number.isFinite(x)]: no coercion, false for everything but a finite
    number. *)
Definition Number_isFinite {F} (x : slot F) : bool :=
  match x with
  | Val (VNum (Fin _)) => true
  | _ => false
  end.

(** [x >= 60] for a number [x]; in the source the comparison is only
    reached, through [&&], when [x] is a finite number. *)
Definition ge_60 {F} (x : slot F) : bool :=
  match x with
  | Val (VNum (Fin q)) => Qle_bool (inject_Z 60) q
  | Val (VNum PosInf) => true
  | _ => false
  end.

(** [Math.floor(x)] of a finite number. *)
Definition Math_floor (q : Qc) : Z := Qfloor q.

(** [typeof x === 'string' && x.length > 0] *)
Definition nonempty_string {F} (x : slot F) : bool :=
  String.eqb (typeof_slot x) "string" &&
  match x with
  | Val (VStr s) => (0 <? String.length s)%nat
  | _ => false
  end.

(** ** The wrapped function and the options *)

(** The original function: its [name] and what [fn.apply(this, args)]
    evaluates to. *)
Record Fn := {
  fn_name : string;
  fn_apply : value -> list value -> completion value
}.

(** A key function, [keyGenerator.apply(fn, args)]. *)
Definition KeyFn := list value -> completion value.

(** [interface KVStore]: the three operations of a store whose state is
    an [S].  [get] answers a text or [null] ([None]), [put] is given the
    [expirationTtl] of its options, [delete] resolves to a value that
    [clear] hands back, and each of them may throw. *)
Class KVStore (S : Type) := {
  kv_get : string -> S -> completion (option string) * S;
  kv_put : string -> string -> Z -> S -> completion unit * S;
  kv_delete : string -> S -> completion value * S
}.

(** What the runtime environment binds to a name: an object, of which the
    capability check of [resolveKV] looks at three members.  A name bound
    to nothing, or to a value without members, is absent from [env]. *)
Record Binding := {
  has_get : bool;       (* typeof KV.get === 'function' *)
  has_put : bool;       (* typeof KV.put === 'function' *)
  has_delete : bool     (* typeof KV.delete === 'function' *)
}.

(** The module ['cloudflare:workers'], of which the wrapper reads [env]. *)
Record RuntimeModule := { env : gmap string Binding }.

(** The external calls of the wrapper, in the order it makes them. *)
Inductive Event :=
  | EvImport                                        (* import('cloudflare:workers') *)
  | EvLookup (name : string)                        (* runtimeCache.env[binding], then the capability check *)
  | EvGet (key : string)                            (* KV.get(key) *)
  | EvPut (key text : string) (expirationTtl : Z)   (* KV.put(key, text, { expirationTtl }) *)
  | EvDelete (key : string)                         (* KV.delete(key) *)
  | EvFn (this : value) (args : list value).        (* fn.apply(this, args) *)

(** What the platform provides: the outcome of
    [import('cloudflare:workers')], and the two functions of [JSON]
    ([JSON.stringify] is only called on a value that is not [undefined]). *)
Class Platform := {
  cloudflare_workers : completion RuntimeModule;
  JSON_parse : string -> completion value;
  JSON_stringify : value -> completion string
}.

(** The result of [computeKey]: [false], or the key. *)
Inductive cacheKey :=
  | KeyFalse
  | Key (k : string).

Section Wrapper.

Context {S : Type} {store_ops : KVStore S} {platform : Platform}.

(** A user-supplied [get] or [set] option: a function of the store handle
    and its other arguments. *)
Definition Getter := string -> S -> completion value * S.
Definition Setter := string -> value -> Qc -> S -> completion value * S.

Record Options := {
  opt_binding : slot unit;
  opt_prefix : slot unit;
  opt_key : slot KeyFn;
  opt_ttl : slot unit;
  opt_get : slot Getter;
  opt_set : slot Setter
}.

(** [{}] *)
Definition no_options : Options :=
  {| opt_binding := Absent; opt_prefix := Absent; opt_key := Absent;
     opt_ttl := Absent; opt_get := Absent; opt_set := Absent |}.

(** One property of [Object.assign({}, a, b)]: the one of [b] when [b]
    has it (whatever its value, [undefined] too), else the one of [a]. *)
Definition assign_slot {F} (a b : slot F) : slot F :=
  match b with
  | Absent => a
  | _ => b
  end.

Definition Object_assign (a b : Options) : Options :=
  {| opt_binding := assign_slot (opt_binding a) (opt_binding b);
     opt_prefix := assign_slot (opt_prefix a) (opt_prefix b);
     opt_key := assign_slot (opt_key a) (opt_key b);
     opt_ttl := assign_slot (opt_ttl a) (opt_ttl b);
     opt_get := assign_slot (opt_get a) (opt_get b);
     opt_set := assign_slot (opt_set a) (opt_set b) |}.

(** The strategies in effect. *)
Inductive GetStrategy := defaultGet_ | customGet (g : Getter).
Inductive SetStrategy := defaultSet_ | customSet (s : Setter).

(** The key generator once validated: a string or a function. *)
Inductive KeyGenerator := KeyString (s : string) | KeyFunction (f : KeyFn).

(** What the closure returned by [kvCache] captures. *)
Record Instance := {
  fn : Fn;
  binding : string;
  prefix : string;
  ttl : Qc;
  keyGenerator : KeyGenerator;
  getter : GetStrategy;
  setter : SetStrategy
}.

Definition string_of_slot {F} (x : slot F) : string :=
  match x with Val (VStr s) => s | _ => "" end.

Definition number_of_slot {F} (x : slot F) : Qc :=
  match x with Val (VNum (Fin q)) => q | _ => 0%Qc end.

Definition keyGenerator_of_slot (x : slot KeyFn) : KeyGenerator :=
  match x with
  | Callable f => KeyFunction f
  | _ => KeyString (string_of_slot x)
  end.

(** The four conditions that [kvCache] asserts. *)
Definition valid_binding (binding : slot unit) : bool :=
  nonempty_string binding.

Definition valid_prefix (prefix : slot unit) : bool :=
  String.eqb (typeof_slot prefix) "string".

Definition valid_key (keyGenerator : slot KeyFn) : bool :=
  truthy_slot keyGenerator &&
  (String.eqb (typeof_slot keyGenerator) "string" ||
   String.eqb (typeof_slot keyGenerator) "function").

Definition valid_ttl (ttl : slot unit) : bool :=
  Number_isFinite ttl && ge_60 ttl.

(** [opts.binding || 'KV'] and [opts.key || fn.name] *)
Definition resolved_binding (opts : Options) : slot unit :=
  or_else (opt_binding opts) (Val (VStr "KV")).

Definition resolved_key (opts : Options) (fn : Fn) : slot KeyFn :=
  or_else (opt_key opts) (Val (VStr (fn_name fn))).

(** [function kvCache (fn, fnOptions = {})], up to the point where the
    closure is returned; [options] are the factory's.  The four [assert]s
    run in the order of the source. *)
Definition kvCache (options : Options) (fn : Fn) (fnOptions : Options)
  : completion Instance :=
  let opts := Object_assign options fnOptions in
  let binding := resolved_binding opts in
  let prefix : slot unit :=
    if String.eqb (typeof_slot (opt_prefix opts)) "string"
    then opt_prefix opts else Val (VStr "") in
  let ttl := opt_ttl opts in
  let keyGenerator := resolved_key opts fn in
  let getter :=
    match opt_get opts with Callable g => customGet g | _ => defaultGet_ end in
  let setter :=
    match opt_set opts with Callable s => customSet s | _ => defaultSet_ end in
  _ ← assert (valid_binding binding)
        "binding must be a non-empty string (KV binding name)";
  _ ← assert (valid_prefix prefix)
        "prefix must be a string";
  _ ← assert (valid_key keyGenerator)
        "`key` must be string or function!";
  _ ← assert (valid_ttl ttl)
        "ttl must be a number of seconds >= 60";
  Normal {| fn := fn;
            binding := string_of_slot binding;
            prefix := string_of_slot prefix;
            ttl := number_of_slot ttl;
            keyGenerator := keyGenerator_of_slot keyGenerator;
            getter := getter;
            setter := setter |}.

(** ** The world of one wrapped function, and its computations *)

Record World := {
  runtimeCache : option RuntimeModule;   (* [let runtimeCache = null] *)
  journal : list Event;
  store : S
}.

Definition M (A : Type) : Type := World -> completion A * World.

#[global] Instance M_ret : MRet M := fun A a w => (Normal a, w).
#[global] Instance M_bind : MBind M := fun A B f m w =>
  match m w with
  | (Normal a, w') => f a w'
  | (Throw e, w') => (Throw e, w')
  end.

(** A call that changes nothing of the world. *)
Definition lift {A} (c : completion A) : M A := fun w => (c, w).

(** [try { body } catch (_) { handler }] *)
Definition try_catch {A} (body : M A) (handler : exn -> M A) : M A := fun w =>
  match body w with
  | (Normal a, w') => (Normal a, w')
  | (Throw e, w') => handler e w'
  end.

(** The world after an event. *)
Definition after (e : Event) (w : World) : World :=
  {| runtimeCache := runtimeCache w;
     journal := journal w ++ [e];
     store := store w |}.

Definition record_event (e : Event) : M unit := fun w =>
  (Normal tt, after e w).

Definition read_runtimeCache : M (option RuntimeModule) := fun w =>
  (Normal (runtimeCache w), w).

Definition write_runtimeCache (m : RuntimeModule) : M unit := fun w =>
  (Normal tt, {| runtimeCache := Some m;
                 journal := journal w;
                 store := store w |}).

(** A call on the store handle. *)
Definition on_store {A} (f : S -> completion A * S) : M A := fun w =>
  let '(r, s) := f (store w) in
  (r, {| runtimeCache := runtimeCache w; journal := journal w; store := s |}).

Definition KV_get (key : string) : M (option string) :=
  _ ← record_event (EvGet key); on_store (kv_get key).

Definition KV_put (key text : string) (expirationTtl : Z) : M unit :=
  _ ← record_event (EvPut key text expirationTtl);
  on_store (kv_put key text expirationTtl).

Definition KV_delete (key : string) : M value :=
  _ ← record_event (EvDelete key); on_store (kv_delete key).

Definition import_cloudflare_workers : M RuntimeModule :=
  _ ← record_event EvImport; lift cloudflare_workers.

(** [KV && typeof KV.get === 'function' && typeof KV.put === 'function'
    && typeof KV.delete === 'function'] *)
Definition valid_KV (KV : option Binding) : bool :=
  match KV with
  | None => false
  | Some b => has_get b && has_put b && has_delete b
  end.

Variable self : Instance.

(** [async function resolveKV ()] *)
Definition resolveKV : M (option Binding) :=
  cached ← read_runtimeCache;
  m ← match cached with
      | None =>
          m ← import_cloudflare_workers;
          _ ← write_runtimeCache m;
          mret m
      | Some m => mret m
      end;
  _ ← record_event (EvLookup (binding self));
  let KV := env m !! binding self in
  _ ← lift (assert (valid_KV KV)
          ("KV binding not found or invalid for name: " +:+ binding self));
  mret KV.

(** [async function computeKey (args)]; it touches nothing of the world,
    so it is a plain function and its callers [lift] it. *)
Definition computeKey (args : list value) : completion cacheKey :=
  match keyGenerator self with
  | KeyString s => Normal (Key (prefix self +:+ s))
  | KeyFunction f =>
      key ← f args;
      match key with
      | VBool false => Normal KeyFalse
      | VStr k => Normal (Key (prefix self +:+ k))
      | _ => Throw (TypeError "key function must return a string or false")
      end
  end.

(** [fn.apply(this, args)] *)
Definition fn_apply_ (this : value) (args : list value) : M value :=
  _ ← record_event (EvFn this args); lift (fn_apply (fn self) this args).

(** [async function defaultGet (KV, key)] *)
Definition defaultGet (key : string) : M value :=
  try_catch
    (text ← KV_get key;
     match text with
     | None => mret VUndefined
     | Some text => lift (JSON_parse text)
     end)
    (fun _ => mret VUndefined).

Definition is_undefined (v : value) : bool :=
  match v with VUndefined => true | _ => false end.

(** [async function defaultSet (KV, key, value, ttl)] *)
Definition defaultSet (key : string) (v : value) (ttl : Qc) : M value :=
  if is_undefined v then mret VUndefined else
  try_catch
    (text ← lift (JSON_stringify v);
     _ ← KV_put key text (Math_floor ttl);
     mret VUndefined)
    (fun _ => mret VUndefined).

(** [getter(KV, cacheKey)] and [setter(KV, cacheKey, value, ttl)] *)
Definition call_getter (key : string) : M value :=
  match getter self with
  | defaultGet_ => defaultGet key
  | customGet g => on_store (g key)
  end.

Definition call_setter (key : string) (v : value) : M value :=
  match setter self with
  | defaultSet_ => defaultSet key v (ttl self)
  | customSet s => on_store (s key v (ttl self))
  end.

(** [async function raw (...args)] *)
Definition raw (this : value) (args : list value) : M value :=
  fn_apply_ this args.

(** [async function cache (...args)] *)
Definition cache (this : value) (args : list value) : M value :=
  cacheKey ← lift (computeKey args);
  match cacheKey with
  | KeyFalse => fn_apply_ this args
  | Key cacheKey =>
      KV ← resolveKV;
      result ← call_getter cacheKey;
      if negb (is_undefined result) then mret result else
      result ← fn_apply_ this args;
      _ ← call_setter cacheKey result;
      mret result
  end.

(** [async function get (...args)] *)
Definition get (args : list value) : M value :=
  cacheKey ← lift (computeKey args);
  match cacheKey with
  | KeyFalse => mret VUndefined
  | Key cacheKey =>
      KV ← resolveKV;
      call_getter cacheKey
  end.

(** [async function set (...argsAndValue)] *)
Definition set (argsAndValue : list value) : M value :=
  let v := List.last argsAndValue VUndefined in
  let args := List.removelast argsAndValue in
  cacheKey ← lift (computeKey args);
  match cacheKey with
  | KeyFalse => mret VUndefined
  | Key cacheKey =>
      if is_undefined v then mret VUndefined else
      KV ← resolveKV;
      call_setter cacheKey v
  end.

(** [async function clear (...args)] *)
Definition clear (args : list value) : M value :=
  cacheKey ← lift (computeKey args);
  match cacheKey with
  | KeyFalse => mret VUndefined
  | Key cacheKey =>
      KV ← resolveKV;
      KV_delete cacheKey
  end.

(** The operations of the wrapped function, and a caller that runs a
    sequence of them, one after the other, catching what each throws. *)
Inductive Op :=
  | OpCache (this : value) (args : list value)
  | OpRaw (this : value) (args : list value)
  | OpGet (args : list value)
  | OpSet (argsAndValue : list value)
  | OpClear (args : list value).

Definition run_op (op : Op) : M value :=
  match op with
  | OpCache this args => cache this args
  | OpRaw this args => raw this args
  | OpGet args => get args
  | OpSet argsAndValue => set argsAndValue
  | OpClear args => clear args
  end.

Fixpoint run_ops (ops : list Op) (w : World) : list (completion value) * World :=
  match ops with
  | [] => ([], w)
  | op :: ops =>
      let '(r, w) := run_op op w in
      let '(rs, w) := run_ops ops w in
      (r :: rs, w)
  end.

(** The world of a wrapped function that has not been used yet. *)
Definition fresh (s : S) : World :=
  {| runtimeCache := None; journal := []; store := s |}.

(** Counting the events of a journal. *)
Fixpoint count_events (p : Event -> bool) (j : list Event) : nat :=
  match j with
  | [] => 0%nat
  | e :: j => ((if p e then 1 else 0) + count_events p j)%nat
  end.

Definition is_import (e : Event) : bool :=
  match e with EvImport => true | _ => false end.
Definition is_fn (e : Event) : bool :=
  match e with EvFn _ _ => true | _ => false end.
Definition is_store_call (e : Event) : bool :=
  match e with EvGet _ | EvPut _ _ _ | EvDelete _ => true | _ => false end.

(** What [resolveKV] throws when its [assert] fails. *)
Definition binding_error : exn :=
  TypeError ("KV binding not found or invalid for name: " +:+ binding self).

(** The module of which [resolveKV] reads [env] in a world: the memoized
    one, or else the one it imports. *)
Definition runtime_module (w : World) : completion RuntimeModule :=
  match runtimeCache w with
  | Some m => Normal m
  | None => cloudflare_workers
  end.

(** The runtime binds a store with the three operations to the binding of
    the instance. *)
Definition bound (w : World) : bool :=
  match runtime_module w with
  | Normal m => valid_KV (env m !! binding self)
  | Throw _ => false
  end.

(** From the world [w], the key derived from [args] is [k], the store
    resolves, and the get-strategy answers [v] for [k], leaving the world
    [w']. *)
Definition reads (args : list value) (w : World) (k : string) (v : value)
    (w' : World) : Prop :=
  exists KV w1,
    computeKey args = Normal (Key k) /\
    resolveKV w = (Normal KV, w1) /\
    call_getter k w1 = (Normal v, w').

(** A computation that keeps a relation between the world it starts from
    and the world it leaves. *)
Definition keeps (R : World -> World -> Prop) {A} (c : M A) : Prop :=
  forall w, R w (c w).2.

(** No call of [fn] in between. *)
Definition same_fn_calls (w w' : World) : Prop :=
  count_events is_fn (journal w') = count_events is_fn (journal w).

(** The imports of the runtime module so far. *)
Definition imports (w : World) : nat := count_events is_import (journal w).


End Wrapper.

Arguments Options : clear implicits.
Arguments Instance : clear implicits.
Arguments World : clear implicits.
Arguments M : clear implicits.
Arguments Getter : clear implicits.
Arguments Setter : clear implicits.
Arguments no_options {S}.

(** ** The fake store of the test suite *)

(** [createFakeKV ()]: the data, and what the fake remembers of its calls.
    The wrapper calls [get] with a key only, so [type] is [undefined] and
    the fake answers the stored text; a call is remembered by its key. *)
Record FakeKV := {
  data : gmap string string;
  lastOptions : option Z;                  (* [undefined], or [{ expirationTtl }] *)
  getCalls : list string;
  putCalls : list (string * string * Z);
  deleteCalls : list string
}.

Definition createFakeKV : FakeKV :=
  {| data := ∅; lastOptions := None;
     getCalls := []; putCalls := []; deleteCalls := [] |}.

Definition FakeKV_get (key : string) (s : FakeKV)
  : completion (option string) * FakeKV :=
  (Normal (data s !! key),
   {| data := data s; lastOptions := lastOptions s;
      getCalls := getCalls s ++ [key];
      putCalls := putCalls s; deleteCalls := deleteCalls s |}).

Definition FakeKV_put (key text : string) (expirationTtl : Z) (s : FakeKV)
  : completion unit * FakeKV :=
  (Normal tt,
   {| data := <[key := text]> (data s); lastOptions := Some expirationTtl;
      getCalls := getCalls s;
      putCalls := putCalls s ++ [(key, text, expirationTtl)];
      deleteCalls := deleteCalls s |}).

Definition FakeKV_delete (key : string) (s : FakeKV)
  : completion value * FakeKV :=
  (Normal VUndefined,
   {| data := delete key (data s); lastOptions := lastOptions s;
      getCalls := getCalls s; putCalls := putCalls s;
      deleteCalls := deleteCalls s ++ [key] |}).

Definition FakeKV_store : KVStore FakeKV :=
  {| kv_get := FakeKV_get; kv_put := FakeKV_put; kv_delete := FakeKV_delete |}.

(** [KV.get = jest.fn(async () => { throw new Error('boom') })], and the
    same for [KV.put]. *)
Definition boom {A} (s : FakeKV) : completion A * FakeKV :=
  (Throw (OtherError "boom"), s).

Definition FakeKV_get_boom : KVStore FakeKV :=
  {| kv_get := fun _ => boom; kv_put := FakeKV_put; kv_delete := FakeKV_delete |}.

Definition FakeKV_put_boom : KVStore FakeKV :=
  {| kv_get := FakeKV_get; kv_put := fun _ _ _ => boom; kv_delete := FakeKV_delete |}.

(** [KV.data.set(key, text)], as the tests seed the store. *)
Definition seed (key text : string) (s : FakeKV) : FakeKV :=
  {| data := <[key := text]> (data s); lastOptions := lastOptions s;
     getCalls := getCalls s; putCalls := putCalls s;
     deleteCalls := deleteCalls s |}.

(** ** A platform to run the examples on *)

(** A codec on literals.  It agrees with [JSON.stringify] and [JSON.parse]
    on [null], the booleans, the integers, and the strings that need no
    escape; it is not defined by the repository, and every other value or
    text is outside of it (there it throws, as [JSON.parse] does on a text
    that is no JSON). *)
Definition quote : string := String (Ascii.ascii_of_nat 34) EmptyString.

Definition plain_char (c : Ascii.ascii) : bool :=
  let n := Ascii.nat_of_ascii c in
  (32 <=? n)%nat && negb (n =? 34)%nat && negb (n =? 92)%nat.

Fixpoint plain (s : string) : bool :=
  match s with
  | EmptyString => true
  | String c s => plain_char c && plain s
  end.

Definition lit_stringify (v : value) : completion string :=
  match v with
  | VNull => Normal "null"
  | VBool true => Normal "true"
  | VBool false => Normal "false"
  | VNum (Fin q) =>
      if (Qden q =? 1)%positive
      then Normal (NilZero.string_of_int (Z.to_int (Qnum q)))
      else Throw (OtherError "outside of the literals")
  | VStr s =>
      if plain s then Normal (quote +:+ s +:+ quote)
      else Throw (OtherError "outside of the literals")
  | _ => Throw (OtherError "outside of the literals")
  end.

(** The text between two quotes. *)
Definition unquote (text : string) : option string :=
  match text with
  | String c rest =>
      let n := String.length rest in
      if (Ascii.eqb c (Ascii.ascii_of_nat 34) && (1 <=? n)%nat &&
          String.eqb (String.substring (n - 1) 1 rest) quote &&
          plain (String.substring 0 (n - 1) rest))%bool
      then Some (String.substring 0 (n - 1) rest)
      else None
  | EmptyString => None
  end.

Definition lit_parse (text : string) : completion value :=
  if String.eqb text "null" then Normal VNull
  else if String.eqb text "true" then Normal (VBool true)
  else if String.eqb text "false" then Normal (VBool false)
  else match unquote text with
  | Some s => Normal (VStr s)
  | None =>
      match NilZero.int_of_string text with
      | Some i =>
          let z := Z.of_int i in
          if String.eqb (NilZero.string_of_int (Z.to_int z)) text
          then Normal (num z)
          else Throw (OtherError "SyntaxError")
      | None => Throw (OtherError "SyntaxError")
      end
  end.

(** [loadFactoryWithEnv({ KV })]: the runtime module binds [KV] to a
    store with the three operations. *)
Definition a_store : Binding :=
  {| has_get := true; has_put := true; has_delete := true |}.

Definition test_platform : Platform :=
  {| cloudflare_workers := Normal {| env := {[ "KV" := a_store ]} |};
     JSON_parse := lit_parse;
     JSON_stringify := lit_stringify |}.

(** [CloudflareKVCache({ ttl: 60 })] and some of the options the tests
    pass. *)
Definition with_ttl {S} (t : value) (o : Options S) : Options S :=
  {| opt_binding := opt_binding o; opt_prefix := opt_prefix o;
     opt_key := opt_key o; opt_ttl := Val t;
     opt_get := opt_get o; opt_set := opt_set o |}.

Definition with_key {S} (k : slot KeyFn) (o : Options S) : Options S :=
  {| opt_binding := opt_binding o; opt_prefix := opt_prefix o;
     opt_key := k; opt_ttl := opt_ttl o;
     opt_get := opt_get o; opt_set := opt_set o |}.

Definition with_binding {S} (b : value) (o : Options S) : Options S :=
  {| opt_binding := Val b; opt_prefix := opt_prefix o;
     opt_key := opt_key o; opt_ttl := opt_ttl o;
     opt_get := opt_get o; opt_set := opt_set o |}.

Definition with_prefix {S} (p : value) (o : Options S) : Options S :=
  {| opt_binding := opt_binding o; opt_prefix := Val p;
     opt_key := opt_key o; opt_ttl := opt_ttl o;
     opt_get := opt_get o; opt_set := opt_set o |}.

Definition with_set {S} (f : Setter S) (o : Options S) : Options S :=
  {| opt_binding := opt_binding o; opt_prefix := opt_prefix o;
     opt_key := opt_key o; opt_ttl := opt_ttl o;
     opt_get := opt_get o; opt_set := Callable f |}.

Definition ttl_60 : Options FakeKV := with_ttl (num 60) no_options.

(** [() => 1], an arrow function passed as an argument: its name is
    empty. *)
Definition arrow_1 : Fn :=
  {| fn_name := ""; fn_apply := fun _ _ => Normal (num 1) |}.

(** [async function one () { return 1 }] *)
Definition one : Fn :=
  {| fn_name := "one"; fn_apply := fun _ _ => Normal (num 1) |}.

(** [async (x) => x], wrapped with [key: (x) => `k:${x}`] on integers. *)
Definition identity : Fn :=
  {| fn_name := "";
     fn_apply := fun _ args => Normal (List.hd VUndefined args) |}.

Definition key_k : KeyFn := fun args =>
  match args with
  | VNum (Fin q) :: _ =>
      Normal (VStr ("k:" +:+ NilZero.string_of_int (Z.to_int (Qnum q))))
  | _ => Normal (VStr "k:undefined")
  end.

(** [key: () => false] *)
Definition key_false : KeyFn := fun _ => Normal (VBool false).

(** [key: () => 123] *)
Definition key_123 : KeyFn := fun _ => Normal (num 123).

(** The instance of a wrap that succeeded; a wrap that threw has none, and
    the examples then run on an instance that is never reached. *)
Definition instance_of {S} (c : completion (Instance S)) : Instance S :=
  match c with
  | Normal i => i
  | Throw _ =>
      {| fn := arrow_1; binding := ""; prefix := ""; ttl := 0%Qc;
         keyGenerator := KeyString ""; getter := defaultGet_;
         setter := defaultSet_ |}
  end.

(** [CloudflareKVCache({ ttl: 60 })(fn, { key: 'fixed' })] *)
Definition fixed_one : Instance FakeKV :=
  instance_of (kvCache ttl_60 one (with_key (Val (VStr "fixed")) no_options)).

(** [CloudflareKVCache({ ttl: 60, prefix: 'p:' })(fn, { key: (x) => `k:${x}` })] *)
Definition keyed_identity : Instance FakeKV :=
  instance_of (kvCache (with_prefix (VStr "p:") ttl_60) identity
                 (with_key (Callable key_k) no_options)).

(** [CloudflareKVCache({ ttl: 60 })(fn, { key: () => false })] *)
Definition bypassing_one : Instance FakeKV :=
  instance_of (kvCache ttl_60 one (with_key (Callable key_false) no_options)).

(** A [set] option that throws. *)
Definition failing_set : Setter FakeKV := fun _ _ _ => boom.

Definition failing_set_one : Instance FakeKV :=
  instance_of (kvCache ttl_60 one
                 (with_set failing_set (with_key (Val (VStr "fixed")) no_options))).

(** [{ key: 'fixed' }] *)
Definition key_fixed : Options FakeKV :=
  with_key (Val (VStr "fixed")) no_options.

(** The world of a fresh instance over an empty fake store, and over one
    seeded with [KV.data.set('fixed', '1')]. *)
Definition empty_world : World FakeKV := fresh createFakeKV.

Definition seeded_world : World FakeKV :=
  fresh (seed "fixed" "1" createFakeKV).

Definition malformed_world : World FakeKV :=
  fresh (seed "bad" "not-json" createFakeKV).

(** [{ ttl: 61.8, prefix: 'p:' }] *)
Definition ttl_61_8 : Options FakeKV :=
  with_prefix (VStr "p:") (with_ttl (VNum (Fin (Q2Qc (618 # 10)))) no_options).

(** [CloudflareKVCache({ ttl: 61.8, prefix: 'p:' })(fn, { key: 'fixed' })] *)
Definition prefixed_identity : Instance FakeKV :=
  instance_of (kvCache ttl_61_8 identity key_fixed).

(** [CloudflareKVCache({ ttl: 60 })(() => 1, { key: () => 123 })] *)
Definition wrongly_keyed : Instance FakeKV :=
  instance_of (kvCache ttl_60 arrow_1 (with_key (Callable key_123) no_options)).

(** [CloudflareKVCache({ ttl: 60, binding: 'MISSING' })(fn, { key: 'fixed' })] *)
Definition missing_binding : Instance FakeKV :=
  instance_of (kvCache (with_binding (VStr "MISSING") ttl_60) one key_fixed).

(** [async () => undefined], wrapped with [key: 'undef-test']. *)
Definition returns_undefined : Fn :=
  {| fn_name := ""; fn_apply := fun _ _ => Normal VUndefined |}.

Definition undef_test : Instance FakeKV :=
  instance_of (kvCache ttl_60 returns_undefined
                 (with_key (Val (VStr "undef-test")) no_options)).

(** What a test looks at after a run: the results, and the calls the fake
    remembers. *)
Definition observed (run : list (completion value) * World FakeKV)
  : list (completion value) * list string * list (string * string * Z) * list string :=
  (run.1, getCalls (store run.2), putCalls (store run.2), deleteCalls (store run.2)).

(** ** The factory *)

Section Factory.

Context {S : Type}.

(** What [CloudflareKVCache] is called with: nothing, a data value, a
    symbol, a bigint, a function, or an object with option properties (an
    object whose properties are all data is also a [VObj], its properties
    being then an association list without repeated names).  These are all
    the results that [typeof] has. *)
Inductive FactoryArg :=
  | NoArgument
  | DataArgument (v : value)
  | SymbolArgument
  | BigIntArgument (n : Z)
  | FunctionArgument
  | OptionsArgument (o : Options S).

Definition typeof_arg (a : FactoryArg) : string :=
  match a with
  | NoArgument => "undefined"
  | DataArgument v => typeof v
  | SymbolArgument => "symbol"
  | BigIntArgument _ => "bigint"
  | FunctionArgument => "function"
  | OptionsArgument _ => "object"
  end.

(** A property of an object given as data. *)
Definition prop_of {F} (props : list (string * value)) (name : string) : slot F :=
  match List.find (fun p => String.eqb (fst p) name) props with
  | Some p => Val (snd p)
  | None => Absent
  end.

(** The option properties that [Object.assign({}, options, fnOptions)]
    copies from [options]: those of an object; [null] is skipped and an
    array has none. *)
Definition options_of_arg (a : FactoryArg) : Options S :=
  match a with
  | OptionsArgument o => o
  | DataArgument (VObj props) =>
      {| opt_binding := prop_of props "binding";
         opt_prefix := prop_of props "prefix";
         opt_key := prop_of props "key";
         opt_ttl := prop_of props "ttl";
         opt_get := prop_of props "get";
         opt_set := prop_of props "set" |}
  | _ => no_options
  end.

(** [export function CloudflareKVCache (options = {})]: the default
    applies to a missing argument and to [undefined]. *)
Definition CloudflareKVCache (arg : FactoryArg)
  : completion (Fn -> Options S -> completion (Instance S)) :=
  let options :=
    match arg with
    | NoArgument | DataArgument VUndefined => OptionsArgument no_options
    | _ => arg
    end in
  _ ← assert (String.eqb (typeof_arg options) "object")
        "`options` must be object!";
  Normal (kvCache (options_of_arg options)).

End Factory.

Arguments FactoryArg : clear implicits.

(** ** What an operation may do *)

Section Footprint.

Context {S : Type} {store_ops : KVStore S} {platform : Platform}.
Variable self : Instance S.

(** The arguments an operation derives its key from; [raw] derives no
    key. *)
Definition key_args (op : Op) : option (list value) :=
  match op with
  | OpCache _ args | OpGet args | OpClear args => Some args
  | OpSet argsAndValue => Some (List.removelast argsAndValue)
  | OpRaw _ _ => None
  end.

(** The key an operation derives, when [computeKey] returns one. *)
Definition derived_key (op : Op) : option string :=
  match key_args op with
  | Some args =>
      match computeKey self args with
      | Normal (Key k) => Some k
      | _ => None
      end
  | None => None
  end.

(** The operations that go as far as [resolveKV]: a key is derived and,
    for [set], the value is not [undefined]. *)
Definition reaches_store (op : Op) : bool :=
  match derived_key op with
  | Some _ =>
      match op with
      | OpSet argsAndValue =>
          negb (is_undefined (List.last argsAndValue VUndefined))
      | _ => true
      end
  | None => false
  end.


(** The events an operation may add to the journal. *)
Definition allowed (op : Op) (e : Event) : Prop :=
  match e with
  | EvImport => reaches_store op = true
  | EvLookup name => reaches_store op = true /\ name = binding self
  | EvGet k =>
      derived_key op = Some k /\
      match op with OpCache _ _ | OpGet _ => True | _ => False end
  | EvPut k _ n =>
      derived_key op = Some k /\ n = Math_floor (ttl self) /\
      match op with OpCache _ _ | OpSet _ => True | _ => False end
  | EvDelete k =>
      derived_key op = Some k /\
      match op with OpClear _ => True | _ => False end
  | EvFn this args =>
      match op with
      | OpCache t a | OpRaw t a => this = t /\ args = a
      | _ => False
      end
  end.

(** The journal of [w'] is the journal of [w] followed by events that are
    all [ok]. *)
Definition extends_with (ok : Event -> Prop) (w w' : World S) : Prop :=
  exists j, journal w' = journal w ++ j /\ Forall ok j.

(** A call on the store carries a key that begins with the prefix of the
    instance, and a [put] carries the floor of its [ttl]. *)
Definition well_keyed (e : Event) : Prop :=
  match e with
  | EvGet k | EvDelete k => String.prefix (prefix self) k = true
  | EvPut k _ n =>
      String.prefix (prefix self) k = true /\ n = Math_floor (ttl self)
  | _ => True
  end.

End Footprint.

(** The calls on the store in a journal, as the fake remembers them. *)
Fixpoint gets (j : list Event) : list string :=
  match j with
  | [] => []
  | EvGet k :: j => k :: gets j
  | _ :: j => gets j
  end.

Fixpoint puts (j : list Event) : list (string * string * Z) :=
  match j with
  | [] => []
  | EvPut k text n :: j => (k, text, n) :: puts j
  | _ :: j => puts j
  end.

Fixpoint deletes (j : list Event) : list string :=
  match j with
  | [] => []
  | EvDelete k :: j => k :: deletes j
  | _ :: j => deletes j
  end.

(** Between two worlds over the fake: the calls it remembered are those
    the journal gained, in the same order. *)
Definition remembered (w w' : World FakeKV) : Prop :=
  exists j,
    journal w' = journal w ++ j /\
    getCalls (store w') = getCalls (store w) ++ gets j /\
    putCalls (store w') = putCalls (store w) ++ puts j /\
    deleteCalls (store w') = deleteCalls (store w) ++ deletes j.

(** ** More fixtures *)

(** A platform on which [import('cloudflare:workers')] throws, as outside
    of the Workers runtime. *)
Definition offline_platform : Platform :=
  {| cloudflare_workers := Throw (OtherError "Cannot find module 'cloudflare:workers'");
     JSON_parse := lit_parse;
     JSON_stringify := lit_stringify |}.

(** A fake whose [delete] throws. *)
Definition FakeKV_delete_boom : KVStore FakeKV :=
  {| kv_get := FakeKV_get; kv_put := FakeKV_put; kv_delete := fun _ => boom |}.

(** [async function failing () { throw new Error('boom') }] *)
Definition failing : Fn :=
  {| fn_name := "failing"; fn_apply := fun _ _ => Throw (OtherError "boom") |}.

Definition fixed_failing : Instance FakeKV :=
  instance_of (kvCache ttl_60 failing key_fixed).

(** A fake whose [delete] resolves to [true]. *)
Definition FakeKV_delete_true : KVStore FakeKV :=
  {| kv_get := FakeKV_get; kv_put := FakeKV_put;
     kv_delete := fun key s => (Normal (VBool true), (FakeKV_delete key s).2) |}.

(** A [set] option that returns: [async (KV, key, value) =>
    KV.data.set(key, 'kept')], which resolves to the map, an object. *)
Definition returning_set : Setter FakeKV := fun key _ _ s =>
  (Normal (VObj []), seed key "kept" s).

Definition returning_set_one : Instance FakeKV :=
  instance_of (kvCache ttl_60 one (with_set returning_set key_fixed)).

(** A [get] option that throws. *)
Definition failing_get : Getter FakeKV := fun _ => boom.

Definition with_get {S} (f : Getter S) (o : Options S) : Options S :=
  {| opt_binding := opt_binding o; opt_prefix := opt_prefix o;
     opt_key := opt_key o; opt_ttl := opt_ttl o;
     opt_get := Callable f; opt_set := opt_set o |}.

Definition failing_get_one : Instance FakeKV :=
  instance_of (kvCache ttl_60 one (with_get failing_get key_fixed)).

(** A binding to an object that has [get] and [put] but no [delete]. *)
Definition no_delete : Binding :=
  {| has_get := true; has_put := true; has_delete := false |}.

Definition half_bound_platform : Platform :=
  {| cloudflare_workers := Normal {| env := {[ "KV" := no_delete ]} |};
     JSON_parse := lit_parse;
     JSON_stringify := lit_stringify |}.

(** * Properties *)

(** ** Wrap time: the validation of the options *)

Section WrapTime.

Context {S : Type}.
Implicit Types (options fnOptions opts : Options S) (fn : Fn).

Lemma assert_true (message : string) : assert true message = Normal tt.
Proof. reflexivity. Qed.

Lemma assert_false (message : string) :
  assert false message = Throw (TypeError message).
Proof. reflexivity. Qed.

(** The prefix that [kvCache] computes always passes its [assert]. *)
Lemma prefix_always_valid (p : slot unit) :
  valid_prefix
    (if String.eqb (typeof_slot p) "string" then p else Val (VStr "")) = true.
Proof.
  unfold valid_prefix.
  destruct (String.eqb (typeof_slot p) "string") eqn:E; [exact E | reflexivity].
Qed.

(** [kvCache] throws nothing but the [TypeError] of an [assert]. *)
Lemma kvCache_throws_TypeError options fn fnOptions :
  is_Normal (kvCache options fn fnOptions) = false ->
  is_TypeError (kvCache options fn fnOptions) = true.
Proof.
  unfold kvCache. cbv zeta.
  rewrite prefix_always_valid.
  destruct (valid_binding _), (valid_key _), (valid_ttl _); cbn; congruence.
Qed.

(** [kvCache] returns a closure exactly when its conditions hold. *)
Lemma kvCache_accepts options fn fnOptions :
  let opts := Object_assign options fnOptions in
  is_Normal (kvCache options fn fnOptions) =
  valid_binding (resolved_binding opts) &&
  valid_key (resolved_key opts fn) &&
  valid_ttl (opt_ttl opts).
Proof.
  unfold kvCache. cbv zeta.
  rewrite prefix_always_valid.
  destruct (valid_binding _), (valid_key _), (valid_ttl _); reflexivity.
Qed.

Lemma kvCache_binding options fn fnOptions inst :
  kvCache options fn fnOptions = Normal inst ->
  binding inst = string_of_slot (resolved_binding (Object_assign options fnOptions)).
Proof.
  unfold kvCache. cbv zeta.
  rewrite prefix_always_valid.
  destruct (valid_binding _), (valid_key _), (valid_ttl _); cbn; try discriminate.
  intros [= <-]. reflexivity.
Qed.

Lemma valid_ttl_60 : valid_ttl (Val (num 60)) = true.
Proof. reflexivity. Qed.

(** A finite number below 60 fails the comparison. *)
Lemma ge_60_lt (q : Qc) :
  (q < Qc_of_Z 60)%Qc -> ge_60 (Val (F := unit) (VNum (Fin q))) = false.
Proof.
  intros Hlt. cbn.
  destruct (Qle_bool (inject_Z 60) q) eqn:E; [|reflexivity].
  apply Qle_bool_iff in E.
  exfalso. exact (Qlt_not_le _ _ Hlt E).
Qed.

Lemma valid_ttl_rejects (t : slot unit) :
  (forall q, t = Val (VNum (Fin q)) -> (q < Qc_of_Z 60)%Qc) ->
  valid_ttl t = false.
Proof.
  intros Hq. unfold valid_ttl.
  destruct t as [|[| | |[| | |q]| | |]|]; try reflexivity.
  rewrite (ge_60_lt q); [reflexivity | auto].
Qed.

(** C3.  A [ttl] that is not a finite number, or is a finite number
    strictly below 60, makes [kvCache] throw a [TypeError] (at wrap time:
    [kvCache] returns no closure); so does an absent [ttl]; and [ttl: 60] is
    accepted, the wrap succeeding whenever the binding and the key are
    valid. *)
Theorem ttl_validated_at_wrap_time options fn fnOptions :
  let opts := Object_assign options fnOptions in
  ((forall q, opt_ttl opts = Val (VNum (Fin q)) -> (q < Qc_of_Z 60)%Qc) ->
   is_TypeError (kvCache options fn fnOptions) = true) /\
  (opt_ttl opts = Absent ->
   is_TypeError (kvCache options fn fnOptions) = true) /\
  (opt_ttl opts = Val (num 60) ->
   valid_ttl (opt_ttl opts) = true /\
   (valid_binding (resolved_binding opts) = true ->
    valid_key (resolved_key opts fn) = true ->
    is_Normal (kvCache options fn fnOptions) = true)).
Proof.
  intros opts.
  assert (Hrej : valid_ttl (opt_ttl opts) = false ->
                 is_TypeError (kvCache options fn fnOptions) = true).
  { intros Hv. apply kvCache_throws_TypeError.
    rewrite kvCache_accepts. fold opts. rewrite Hv.
    now rewrite andb_false_r. }
  split; [|split].
  - intros Hq. apply Hrej, valid_ttl_rejects, Hq.
  - intros Ha. apply Hrej. now rewrite Ha.
  - intros H60. rewrite H60. split; [exact valid_ttl_60|].
    intros Hb Hk. rewrite kvCache_accepts. fold opts.
    now rewrite Hb, Hk, H60.
Qed.

(** The validation of the binding.  When [opts.binding || 'KV'] is not a
    non-empty string, [kvCache] throws the [TypeError] of its first
    [assert]; when the binding option is absent, the binding is ["KV"], and
    the wrap succeeds, with that binding, whenever the key and the ttl are
    valid. *)
Theorem binding_validated_at_wrap_time options fn fnOptions :
  let opts := Object_assign options fnOptions in
  (nonempty_string (resolved_binding opts) = false ->
   kvCache options fn fnOptions =
   Throw (TypeError "binding must be a non-empty string (KV binding name)")) /\
  (opt_binding opts = Absent ->
   resolved_binding opts = Val (VStr "KV") /\
   (valid_key (resolved_key opts fn) = true ->
    valid_ttl (opt_ttl opts) = true ->
    exists inst, kvCache options fn fnOptions = Normal inst /\
                 binding inst = "KV")).
Proof.
  intros opts. split.
  - intros Hb. unfold kvCache. cbv zeta. fold opts.
    unfold valid_binding. now rewrite Hb.
  - intros Ha.
    assert (Hr : resolved_binding opts = Val (VStr "KV")).
    { unfold resolved_binding. now rewrite Ha. }
    split; [exact Hr|]. intros Hk Ht.
    destruct (kvCache options fn fnOptions) as [inst|e] eqn:E.
    + exists inst. split; [reflexivity|].
      rewrite (kvCache_binding _ _ _ _ E). fold opts. now rewrite Hr.
    + pose proof (kvCache_accepts options fn fnOptions) as Hacc.
      cbv zeta in Hacc. fold opts in Hacc.
      rewrite E, Hr, Hk, Ht in Hacc. discriminate.
Qed.

(** C10.  Wrapping a function whose name is empty, with no key option in
    either options object, throws a [TypeError]: the key generator is the
    empty name, which fails the validation of the key, and no closure is
    returned. *)
Theorem anonymous_function_needs_a_key options fn fnOptions :
  fn_name fn = "" ->
  opt_key options = Absent ->
  opt_key fnOptions = Absent ->
  let opts := Object_assign options fnOptions in
  resolved_key opts fn = Val (VStr "") /\
  valid_key (resolved_key opts fn) = false /\
  is_TypeError (kvCache options fn fnOptions) = true /\
  is_Normal (kvCache options fn fnOptions) = false /\
  (valid_binding (resolved_binding opts) = true ->
   kvCache options fn fnOptions =
   Throw (TypeError "`key` must be string or function!")).
Proof.
  intros Hname Ho Hf opts.
  assert (Hr : resolved_key opts fn = Val (VStr "")).
  { unfold resolved_key, opts. cbn. rewrite Ho, Hf, Hname. reflexivity. }
  assert (Hv : valid_key (resolved_key opts fn) = false) by now rewrite Hr.
  assert (Hn : is_Normal (kvCache options fn fnOptions) = false).
  { rewrite kvCache_accepts. fold opts. rewrite Hv.
    now rewrite andb_false_r. }
  repeat split; try assumption.
  - now apply kvCache_throws_TypeError.
  - intros Hb. unfold kvCache. cbv zeta. fold opts.
    rewrite Hb, prefix_always_valid, Hv. reflexivity.
Qed.

End WrapTime.

(** ** Call time: the operations of a wrapped function *)

Section Calls.

Context {S : Type} {store_ops : KVStore S} {platform : Platform}.
Variable self : Instance S.
Implicit Types (w : World S) (args : list value) (this v : value) (key : string).

(** How a sequence of two computations runs. *)
Lemma bind_run {A B} (m : M S A) (f : A -> M S B) w :
  (m ≫= f) w =
  match m w with
  | (Normal a, w') => f a w'
  | (Throw e, w') => (Throw e, w')
  end.
Proof. reflexivity. Qed.

Lemma bind_Normal {A B} (m : M S A) (f : A -> M S B) w a w' :
  m w = (Normal a, w') -> (m ≫= f) w = f a w'.
Proof. intros E. rewrite bind_run, E. reflexivity. Qed.

Lemma bind_Throw {A B} (m : M S A) (f : A -> M S B) w e w' :
  m w = (Throw e, w') -> (m ≫= f) w = (Throw e, w').
Proof. intros E. rewrite bind_run, E. reflexivity. Qed.

Lemma lift_run {A} (c : completion A) w : lift c w = (c, w).
Proof. reflexivity. Qed.

Lemma fn_apply_run this args w :
  fn_apply_ self this args w = (fn_apply (fn self) this args, after (EvFn this args) w).
Proof.
  unfold fn_apply_. rewrite bind_run. cbn.
  destruct (fn_apply (fn self) this args); reflexivity.
Qed.

(** C4.  When the key function returns [false] for the arguments, the call
    evaluates [fn.apply(this, args)] and returns what it returns; of the
    world it only extends the journal, by that one call: [runtimeCache] and
    the store are as before, and the journal gains no import, no lookup of
    the binding, no [get], [put] or [delete]. *)
Theorem bypass_calls_fn_only (f : KeyFn) this args w :
  keyGenerator self = KeyFunction f ->
  f args = Normal (VBool false) ->
  let (result, w') := cache self this args w in
  result = fn_apply (fn self) this args /\
  runtimeCache w' = runtimeCache w /\
  store w' = store w /\
  journal w' = journal w ++ [EvFn this args].
Proof.
  intros Hk Hf.
  assert (Hkey : computeKey self args = Normal KeyFalse).
  { unfold computeKey. rewrite Hk, Hf. reflexivity. }
  unfold cache. rewrite (bind_Normal _ _ w KeyFalse w).
  - rewrite fn_apply_run. cbn. auto.
  - rewrite lift_run, Hkey. reflexivity.
Qed.

(** C8.  [set] whose trailing argument is [undefined] leaves the whole
    world as it is (no resolution, no call on the store, an unchanged
    journal), whatever the key derivation gives; and so does [set] when the
    key derivation gives [false], whatever the value. *)
Theorem set_skips_undefined_and_bypass args w :
  (set self (args ++ [VUndefined]) w).2 = w /\
  (forall v, computeKey self args = Normal KeyFalse ->
             set self (args ++ [v]) w = (Normal VUndefined, w)).
Proof.
  split.
  - unfold set. cbv zeta.
    rewrite List.last_last, List.removelast_last, bind_run, lift_run.
    destruct (computeKey self args) as [[|k]|e]; reflexivity.
  - intros v Hkey. unfold set. cbv zeta.
    rewrite List.removelast_last, bind_run, lift_run, Hkey. reflexivity.
Qed.

Lemma KV_get_run key w :
  KV_get key w =
  let '(r, s) := kv_get key (store w) in
  (r, {| runtimeCache := runtimeCache w;
         journal := journal w ++ [EvGet key];
         store := s |}).
Proof. unfold KV_get. rewrite bind_run. reflexivity. Qed.

Lemma KV_put_run key text (n : Z) w :
  KV_put key text n w =
  let '(r, s) := kv_put key text n (store w) in
  (r, {| runtimeCache := runtimeCache w;
         journal := journal w ++ [EvPut key text n];
         store := s |}).
Proof. unfold KV_put. rewrite bind_run. reflexivity. Qed.

(** C7.  [defaultGet] never throws; and it returns [undefined] when the
    store answers [null], when the read of the store throws, and when the
    stored text does not parse. *)
Theorem defaultGet_never_throws key w :
  (exists v, (defaultGet key w).1 = Normal v) /\
  (forall s', kv_get key (store w) = (Normal None, s') ->
              (defaultGet key w).1 = Normal VUndefined) /\
  (forall e s', kv_get key (store w) = (Throw e, s') ->
                (defaultGet key w).1 = Normal VUndefined) /\
  (forall text e s', kv_get key (store w) = (Normal (Some text), s') ->
                     JSON_parse text = Throw e ->
                     (defaultGet key w).1 = Normal VUndefined).
Proof.
  unfold defaultGet, try_catch.
  rewrite bind_run, KV_get_run.
  destruct (kv_get key (store w)) as [[[text|]|e] s] eqn:E; cbn.
  - destruct (JSON_parse text) as [v|e] eqn:P; cbn.
    + split; [eauto|]. repeat split; intros; try discriminate.
      congruence.
    + split; [eauto|]. repeat split; intros; reflexivity.
  - split; [eauto|]. repeat split; intros; reflexivity.
  - split; [eauto|]. repeat split; intros; reflexivity.
Qed.


(** *** What the computations keep *)

Section Keeps.

Variable R : World S -> World S -> Prop.
Hypothesis R_refl : forall w, R w w.
Hypothesis R_trans : forall w1 w2 w3, R w1 w2 -> R w2 w3 -> R w1 w3.

Lemma keeps_ret {A} (a : A) : keeps R (mret a : M S A).
Proof. intros w. apply R_refl. Qed.

Lemma keeps_lift {A} (c : completion A) : keeps R (lift c).
Proof. intros w. apply R_refl. Qed.

Lemma keeps_bind {A B} (m : M S A) (f : A -> M S B) :
  keeps R m -> (forall a, keeps R (f a)) -> keeps R (m ≫= f).
Proof.
  intros Hm Hf w. rewrite bind_run.
  specialize (Hm w). destruct (m w) as [[a|e] w1]; cbn in *.
  - eapply R_trans; [exact Hm | apply Hf].
  - exact Hm.
Qed.

Lemma keeps_try_catch {A} (body : M S A) (handler : exn -> M S A) :
  keeps R body -> (forall e, keeps R (handler e)) ->
  keeps R (try_catch body handler).
Proof.
  intros Hb Hh w. unfold try_catch.
  specialize (Hb w). destruct (body w) as [[a|e] w1]; cbn in *.
  - exact Hb.
  - eapply R_trans; [exact Hb | apply Hh].
Qed.

(** The parts of the world that [R] may depend on without being broken by
    a call on the store, or by an event that [ok] lets through. *)
Variable ok : Event -> bool.
Hypothesis R_store : forall w s,
  R w {| runtimeCache := runtimeCache w; journal := journal w; store := s |}.
Hypothesis R_event : forall w e, ok e = true -> R w (after e w).

Lemma keeps_on_store {A} (f : S -> completion A * S) : keeps R (on_store f).
Proof.
  intros w. unfold on_store. destruct (f (store w)) as [r s]. apply R_store.
Qed.

Lemma keeps_record_event e : ok e = true -> keeps R (record_event e).
Proof. intros He w. apply R_event, He. Qed.

Lemma keeps_KV_get key : ok (EvGet key) = true -> keeps R (KV_get key).
Proof.
  intros He. apply keeps_bind; [apply keeps_record_event, He|].
  intros _. apply keeps_on_store.
Qed.

Lemma keeps_KV_put key text (n : Z) :
  ok (EvPut key text n) = true -> keeps R (KV_put key text n).
Proof.
  intros He. apply keeps_bind; [apply keeps_record_event, He|].
  intros _. apply keeps_on_store.
Qed.


Hypothesis ok_store_call : forall e, is_store_call e = true -> ok e = true.

Lemma keeps_defaultGet key : keeps R (defaultGet key).
Proof.
  apply keeps_try_catch; [|intros; apply keeps_ret].
  apply keeps_bind; [apply keeps_KV_get, ok_store_call; reflexivity|].
  intros [text|]; [apply keeps_lift | apply keeps_ret].
Qed.

Lemma keeps_defaultSet key v (t : Qc) : keeps R (defaultSet key v t).
Proof.
  unfold defaultSet. destruct (is_undefined v); [apply keeps_ret|].
  apply keeps_try_catch; [|intros; apply keeps_ret].
  apply keeps_bind; [apply keeps_lift|]. intros text.
  apply keeps_bind; [apply keeps_KV_put, ok_store_call; reflexivity|].
  intros _. apply keeps_ret.
Qed.

Lemma keeps_call_getter key : keeps R (call_getter self key).
Proof.
  unfold call_getter. destruct (getter self);
    [apply keeps_defaultGet | apply keeps_on_store].
Qed.

Lemma keeps_call_setter key v : keeps R (call_setter self key v).
Proof.
  unfold call_setter. destruct (setter self);
    [apply keeps_defaultSet | apply keeps_on_store].
Qed.

(** [resolveKV], when [R] does not look at [runtimeCache] and lets the
    import and the lookup through. *)
Lemma keeps_resolveKV_plain :
  (forall w m, R w {| runtimeCache := Some m; journal := journal w; store := store w |}) ->
  ok EvImport = true -> ok (EvLookup (binding self)) = true ->
  keeps R (resolveKV self).
Proof.
  intros R_write Hi Hl. unfold resolveKV.
  apply keeps_bind; [intros w; apply R_refl|]. intros cached.
  apply keeps_bind.
  - destruct cached as [m|]; [apply keeps_ret|].
    apply keeps_bind.
    + apply keeps_bind; [apply keeps_record_event, Hi|].
      intros _. apply keeps_lift.
    + intros m. apply keeps_bind; [intros w; apply R_write|].
      intros _. apply keeps_ret.
  - intros m. apply keeps_bind; [apply keeps_record_event, Hl|].
    intros _. apply keeps_bind; [apply keeps_lift|].
    intros _. apply keeps_ret.
Qed.

(** An operation keeps what [resolveKV] and [fn.apply] keep. *)
Hypothesis keeps_resolveKV : keeps R (resolveKV self).
Hypothesis keeps_fn_apply : forall this args, keeps R (fn_apply_ self this args).



End Keeps.

(** *** The resolution of the store *)

Ltac run :=
  cbv beta iota zeta delta
    [mbind mret M_bind M_ret read_runtimeCache write_runtimeCache
     record_event import_cloudflare_workers lift].

Lemma resolveKV_cached w m :
  runtimeCache w = Some m ->
  resolveKV self w =
  (if valid_KV (env m !! binding self)
   then Normal (env m !! binding self) else Throw (binding_error self),
   after (EvLookup (binding self)) w).
Proof.
  intros Hc. unfold resolveKV. run. rewrite Hc. cbn.
  destruct (valid_KV (env m !! binding self)); reflexivity.
Qed.

Lemma resolveKV_imports w m :
  runtimeCache w = None ->
  cloudflare_workers = Normal m ->
  resolveKV self w =
  (if valid_KV (env m !! binding self)
   then Normal (env m !! binding self) else Throw (binding_error self),
   after (EvLookup (binding self))
     {| runtimeCache := Some m; journal := journal w ++ [EvImport];
        store := store w |}).
Proof.
  intros Hc Hi. unfold resolveKV. run. rewrite Hc, Hi. cbn.
  destruct (valid_KV (env m !! binding self)); reflexivity.
Qed.

Lemma resolveKV_import_fails w e :
  runtimeCache w = None ->
  cloudflare_workers = Throw e ->
  resolveKV self w = (Throw e, after EvImport w).
Proof.
  intros Hc Hi. unfold resolveKV. run. rewrite Hc, Hi. reflexivity.
Qed.

(** Where the runtime binds a valid store, [resolveKV] returns it, the
    store is as before, and the binding stays valid. *)
Lemma resolveKV_bound w :
  bound self w = true ->
  exists KV w1,
    resolveKV self w = (Normal KV, w1) /\
    store w1 = store w /\ bound self w1 = true.
Proof.
  unfold bound, runtime_module. intros Hb.
  destruct (runtimeCache w) as [m|] eqn:Hc.
  - rewrite (resolveKV_cached w m Hc), Hb.
    eexists _, _. split; [reflexivity|]. split; [reflexivity|].
    unfold bound, runtime_module. cbn. now rewrite Hc.
  - destruct cloudflare_workers as [m|e] eqn:Hi; [|discriminate].
    rewrite (resolveKV_imports w m Hc Hi), Hb.
    eexists _, _. split; [reflexivity|]. split; [reflexivity|].
    unfold bound, runtime_module. cbn. exact Hb.
Qed.

Lemma count_events_app (p : Event -> bool) (j1 j2 : list Event) :
  count_events p (j1 ++ j2) = (count_events p j1 + count_events p j2)%nat.
Proof.
  induction j1 as [|e j1 IH]; cbn; [reflexivity|]. rewrite IH. lia.
Qed.

Lemma count_events_after (p : Event -> bool) e w :
  count_events p (journal (after e w)) =
  (count_events p (journal w) + if p e then 1 else 0)%nat.
Proof. cbn. rewrite count_events_app. cbn. lia. Qed.

(** *** The memoization of the runtime module *)







(** *** The lookup of the binding *)










(** *** Hits and misses *)

Lemma same_fn_calls_refl w : same_fn_calls w w.
Proof. reflexivity. Qed.

Lemma same_fn_calls_trans w1 w2 w3 :
  same_fn_calls w1 w2 -> same_fn_calls w2 w3 -> same_fn_calls w1 w3.
Proof. unfold same_fn_calls. congruence. Qed.

Lemma same_fn_calls_store w s :
  same_fn_calls w {| runtimeCache := runtimeCache w; journal := journal w; store := s |}.
Proof. reflexivity. Qed.

Lemma same_fn_calls_event w e : negb (is_fn e) = true -> same_fn_calls w (after e w).
Proof.
  intros He. apply negb_true_iff in He.
  unfold same_fn_calls. rewrite count_events_after, He. lia.
Qed.

Lemma store_call_not_fn e : is_store_call e = true -> negb (is_fn e) = true.
Proof. destruct e; cbn; congruence. Qed.

Lemma same_fn_calls_resolveKV : keeps same_fn_calls (resolveKV self).
Proof.
  apply (keeps_resolveKV_plain same_fn_calls same_fn_calls_refl
           same_fn_calls_trans (fun e => negb (is_fn e)) same_fn_calls_event);
    reflexivity.
Qed.

Lemma same_fn_calls_call_getter key : keeps same_fn_calls (call_getter self key).
Proof.
  exact (keeps_call_getter same_fn_calls same_fn_calls_refl same_fn_calls_trans
           (fun e => negb (is_fn e)) same_fn_calls_store same_fn_calls_event
           store_call_not_fn key).
Qed.

Lemma same_fn_calls_call_setter key v : keeps same_fn_calls (call_setter self key v).
Proof.
  exact (keeps_call_setter same_fn_calls same_fn_calls_refl same_fn_calls_trans
           (fun e => negb (is_fn e)) same_fn_calls_store same_fn_calls_event
           store_call_not_fn key v).
Qed.

(** With the default get-strategy, an entry of the bound store is read when
    the store answers its text and the text parses. *)
Lemma reads_stored_entry args w k text v s' :
  getter self = defaultGet_ ->
  computeKey self args = Normal (Key k) ->
  bound self w = true ->
  kv_get k (store w) = (Normal (Some text), s') ->
  JSON_parse text = Normal v ->
  exists w', reads self args w k v w'.
Proof.
  intros Hget Hk Hb Hread Hparse.
  destruct (resolveKV_bound w Hb) as (KV & w1 & Hr & Hs1 & _).
  eexists. exists KV, w1. split; [exact Hk|]. split; [exact Hr|].
  unfold call_getter. rewrite Hget. unfold defaultGet, try_catch.
  rewrite bind_run, KV_get_run, Hs1, Hread, Hparse. reflexivity.
Qed.

(** A call that reads a value that is not [undefined] returns it, from the
    world the get-strategy leaves. *)
Lemma cache_hit_run this args w k v w' :
  reads self args w k v w' -> is_undefined v = false ->
  cache self this args w = (Normal v, w').
Proof.
  intros (KV & w1 & Hk & Hr & Hg) Hv. unfold cache.
  rewrite bind_run, lift_run, Hk, bind_run, Hr, bind_run, Hg, Hv.
  reflexivity.
Qed.

(** A call that reads [undefined] goes on with [fn] and the set-strategy. *)
Lemma cache_miss_run this args w k w' :
  reads self args w k VUndefined w' ->
  cache self this args w =
  (result ← fn_apply_ self this args;
   _ ← call_setter self k result;
   mret result) w'.
Proof.
  intros (KV & w1 & Hk & Hr & Hg). unfold cache.
  rewrite bind_run, lift_run, Hk, bind_run, Hr, bind_run, Hg.
  reflexivity.
Qed.

(** One call evaluates [fn.apply] at most once. *)
Lemma cache_calls_fn_at_most_once this args w :
  (count_events is_fn (journal (cache self this args w).2) <=
   count_events is_fn (journal w) + 1)%nat.
Proof.
  unfold cache. rewrite bind_run, lift_run.
  destruct (computeKey self args) as [[|k]|e]; cbn [snd]; [| |lia].
  - rewrite fn_apply_run. cbn [snd]. rewrite count_events_after. cbn. lia.
  - rewrite bind_run.
    pose proof (same_fn_calls_resolveKV w) as H1.
    destruct (resolveKV self w) as [[KV|e] w1]; cbn [snd] in *;
      unfold same_fn_calls in H1; [|lia].
    rewrite bind_run.
    pose proof (same_fn_calls_call_getter k w1) as H2.
    destruct (call_getter self k w1) as [[result|e] w2]; cbn [snd] in *;
      unfold same_fn_calls in H2; [|lia].
    destruct (negb (is_undefined result)); [unfold mret, M_ret; cbn [snd]; lia|].
    rewrite bind_run, fn_apply_run.
    destruct (fn_apply (fn self) this args) as [r|e]; cbn [snd].
    + rewrite bind_run.
      pose proof (same_fn_calls_call_setter k r (after (EvFn this args) w2)) as H3.
      destruct (call_setter self k r _) as [[u|e] w3];
        unfold mret, M_ret; cbn [snd] in *;
        unfold same_fn_calls in H3; rewrite count_events_after in H3;
        cbn in H3; lia.
    + rewrite count_events_after. cbn. lia.
Qed.

(** C5.  A call whose derived key the get-strategy reads as a value that
    is not [undefined] returns that value and does not evaluate [fn.apply];
    hence two calls in a row with these arguments, the first of which finds
    such an entry, evaluate [fn.apply] at most once. *)
Theorem cache_hit_skips_fn this args w k v w' :
  reads self args w k v w' ->
  v <> VUndefined ->
  cache self this args w = (Normal v, w') /\
  count_events is_fn (journal w') = count_events is_fn (journal w) /\
  (count_events is_fn
     (journal (run_ops self [OpCache this args; OpCache this args] w).2) <=
   count_events is_fn (journal w) + 1)%nat.
Proof.
  intros Hreads Hv.
  assert (Hu : is_undefined v = false) by (destruct v; cbn; congruence).
  pose proof (cache_hit_run this args w k v w' Hreads Hu) as Hrun.
  assert (Hsame : count_events is_fn (journal w') = count_events is_fn (journal w)).
  { destruct Hreads as (KV & w1 & Hk & Hr & Hg).
    pose proof (same_fn_calls_resolveKV w) as H1. rewrite Hr in H1.
    pose proof (same_fn_calls_call_getter k w1) as H2. rewrite Hg in H2.
    unfold same_fn_calls in *. cbn [snd] in *. congruence. }
  split; [exact Hrun|]. split; [exact Hsame|].
  cbn [run_ops run_op]. rewrite Hrun.
  pose proof (cache_calls_fn_at_most_once this args w') as Hle.
  destruct (cache self this args w') as [r2 w2]. cbn [snd] in *. lia.
Qed.

Lemma defaultSet_never_throws key v (t : Qc) w :
  (defaultSet key v t w).1 = Normal VUndefined.
Proof.
  unfold defaultSet. destruct (is_undefined v); [reflexivity|].
  unfold try_catch. rewrite bind_run, lift_run.
  destruct (JSON_stringify v) as [text|e]; [|reflexivity].
  rewrite bind_run, KV_put_run.
  destruct (kv_put key text (Math_floor t) (store w)) as [[[]|e] s]; reflexivity.
Qed.

(** C2, as the code has it.  When a call misses (the get-strategy answers
    [undefined]) and [fn] returns [r]: with the default set-strategy the
    call returns [r], whatever the store write does; with a user-supplied
    set-strategy that returns, the call returns [r] too, what the strategy
    returned being dropped; and with a user-supplied set-strategy that
    throws, the call throws what the strategy threw. *)
Theorem miss_returns_result_unless_set_throws this args w k w' r :
  reads self args w k VUndefined w' ->
  fn_apply (fn self) this args = Normal r ->
  (setter self = defaultSet_ ->
   (cache self this args w).1 = Normal r) /\
  (forall (s : Setter S) u s',
     setter self = customSet s ->
     s k r (ttl self) (store w') = (Normal u, s') ->
     (cache self this args w).1 = Normal r) /\
  (forall (s : Setter S) e s',
     setter self = customSet s ->
     s k r (ttl self) (store w') = (Throw e, s') ->
     (cache self this args w).1 = Throw e).
Proof.
  intros Hreads Hfn.
  rewrite (cache_miss_run this args w k w' Hreads).
  rewrite bind_run, fn_apply_run, Hfn, bind_run.
  split; [|split].
  - intros Hs. unfold call_setter. rewrite Hs.
    pose proof (defaultSet_never_throws k r (ttl self)
                  (after (EvFn this args) w')) as Hd.
    destruct (defaultSet k r (ttl self) _) as [[u|e] w3]; cbn in *;
      [reflexivity | discriminate].
  - intros s u s' Hs Hreturn. unfold call_setter, on_store. rewrite Hs.
    cbn [store after]. rewrite Hreturn. reflexivity.
  - intros s e s' Hs Hthrow. unfold call_setter, on_store. rewrite Hs.
    cbn [store after]. rewrite Hthrow. reflexivity.
Qed.

(** *** Round trip *)

Lemma bound_runtimeCache w w' :
  runtimeCache w' = runtimeCache w -> bound self w' = bound self w.
Proof. intros Hc. unfold bound, runtime_module. now rewrite Hc. Qed.

(** C6.  With the default strategies, a key derivation that gives a key, a
    value other than [undefined] that [JSON.stringify] turns into a text
    that [JSON.parse] turns back into it, a runtime that binds a valid
    store, and a store that keeps what is put at that key: [set] of the
    arguments and the value, then [get] of the arguments, returns the
    value. *)
Theorem set_then_get_round_trip args v k text w :
  getter self = defaultGet_ ->
  setter self = defaultSet_ ->
  v <> VUndefined ->
  computeKey self args = Normal (Key k) ->
  JSON_stringify v = Normal text ->
  JSON_parse text = Normal v ->
  bound self w = true ->
  (forall s, exists s',
     kv_put k text (Math_floor (ttl self)) s = (Normal tt, s') /\
     exists s'', kv_get k s' = (Normal (Some text), s'')) ->
  (set self (args ++ [v]) w).1 = Normal VUndefined /\
  (get self args (set self (args ++ [v]) w).2).1 = Normal v.
Proof.
  intros Hget Hset Hv Hk Hstr Hparse Hb Hkeep.
  assert (Hu : is_undefined v = false) by (destruct v; cbn; congruence).
  destruct (resolveKV_bound w Hb) as (KV & w1 & Hr & Hs1 & Hb1).
  destruct (Hkeep (store w1)) as (s' & Hput & s'' & Hread).
  assert (Hsetrun : set self (args ++ [v]) w =
            (Normal VUndefined,
             {| runtimeCache := runtimeCache w1;
                journal := journal w1 ++ [EvPut k text (Math_floor (ttl self))];
                store := s' |})).
  { unfold set. cbv zeta.
    rewrite List.last_last, List.removelast_last.
    rewrite bind_run, lift_run, Hk, Hu, bind_run, Hr.
    unfold call_setter. rewrite Hset. unfold defaultSet. rewrite Hu.
    unfold try_catch. rewrite bind_run, lift_run, Hstr, bind_run, KV_put_run, Hput.
    reflexivity. }
  rewrite Hsetrun. cbn [fst snd]. split; [reflexivity|].
  set (w2 := {| runtimeCache := runtimeCache w1; journal := _; store := s' |}).
  assert (Hb2 : bound self w2 = true).
  { rewrite (bound_runtimeCache w1 w2); [exact Hb1 | reflexivity]. }
  destruct (resolveKV_bound w2 Hb2) as (KV' & w3 & Hr3 & Hs3 & _).
  unfold get. rewrite bind_run, lift_run, Hk, bind_run, Hr3.
  unfold call_getter. rewrite Hget. unfold defaultGet, try_catch.
  rewrite bind_run, KV_get_run, Hs3. cbn [store w2]. rewrite Hread, Hparse.
  reflexivity.
Qed.

End Calls.

(** * The test suite, replayed *)

Section Replay.

#[local] Existing Instance test_platform.
#[local] Existing Instance FakeKV_store.

(** 'validates ttl, binding, and key; prefix non-string falls back to
    empty': the three wraps of [() => 1] throw, each at the [assert] of the
    key, since the name of the arrow function is empty. *)
Example validates_ttl_binding_and_key :
  kvCache ttl_60 arrow_1 (with_ttl (num 59) no_options) =
    Throw (TypeError "`key` must be string or function!") /\
  kvCache ttl_60 arrow_1 (with_binding (VStr "") no_options) =
    Throw (TypeError "`key` must be string or function!") /\
  kvCache ttl_60 arrow_1 (with_key (Val (num 123)) no_options) =
    Throw (TypeError "`key` must be string or function!") /\
  prefix (instance_of (kvCache ttl_60 one (with_prefix (num 123) key_fixed))) = "".
Proof. repeat split; reflexivity. Qed.

(** 'throws when ttl is missing (undefined)' *)
Example throws_when_ttl_is_missing :
  kvCache no_options arrow_1 key_fixed =
  Throw (TypeError "ttl must be a number of seconds >= 60").
Proof. reflexivity. Qed.

(** 'uses string key generator and prefix, caches miss then sets': the
    key is ['p:fixed'] and the TTL is floored. *)
Example caches_miss_then_sets :
  observed (run_ops prefixed_identity [OpCache VUndefined [num 5]] empty_world) =
  ([Normal (num 5)], ["p:fixed"], [("p:fixed", "5", 61)], []).
Proof. vm_compute. reflexivity. Qed.

(** 'skip caching when key function returns false' *)
Example skip_caching_when_key_is_false :
  observed (run_ops bypassing_one [OpCache VUndefined [num 1]] empty_world) =
  ([Normal (num 1)], [], [], []).
Proof. vm_compute. reflexivity. Qed.

(** 'throws when key function returns non-string' *)
Example throws_when_key_is_no_string :
  (cache wrongly_keyed VUndefined [] empty_world).1 =
  Throw (TypeError "key function must return a string or false").
Proof. vm_compute. reflexivity. Qed.

(** 'get returns undefined on miss, set stores value, clear deletes' *)
Example get_set_clear :
  observed (run_ops keyed_identity
              [OpGet [num 7]; OpSet [num 7; num 777]; OpGet [num 7];
               OpClear [num 7]; OpGet [num 7]] empty_world) =
  ([Normal VUndefined; Normal VUndefined; Normal (num 777);
    Normal VUndefined; Normal VUndefined],
   ["p:k:7"; "p:k:7"; "p:k:7"], [("p:k:7", "777", 60)], ["p:k:7"]).
Proof. vm_compute. reflexivity. Qed.

(** 'clear skips when key function returns false' and 'get skips when key
    function returns false' *)
Example clear_and_get_skip_when_key_is_false :
  observed (run_ops bypassing_one
              [OpClear [VStr "anything"]; OpGet [VStr "anything"]] empty_world) =
  ([Normal VUndefined; Normal VUndefined], [], [], []).
Proof. vm_compute. reflexivity. Qed.

(** 'set skips undefined values' *)
Example set_skips_undefined_values :
  observed (run_ops fixed_one [OpSet [VUndefined]; OpSet [VStr "value"]] empty_world) =
  ([Normal VUndefined; Normal VUndefined], [],
   [("fixed", quote +:+ "value" +:+ quote, 60)], []).
Proof. vm_compute. reflexivity. Qed.

(** 'defaultGet returns undefined on invalid JSON and on KV miss, returns
    null correctly' *)
Example defaultGet_on_miss_invalid_and_null :
  (defaultGet "bad" empty_world).1 = Normal VUndefined /\
  (defaultGet "bad" malformed_world).1 = Normal VUndefined /\
  (defaultGet "bad" (fresh (seed "bad" "null" createFakeKV))).1 = Normal VNull.
Proof. vm_compute. repeat split; reflexivity. Qed.

(** 'binding resolution asserts when missing binding' *)
Example missing_binding_throws :
  (cache missing_binding VUndefined [] empty_world).1 =
  Throw (TypeError "KV binding not found or invalid for name: MISSING").
Proof. vm_compute. reflexivity. Qed.

(** 'resolveKV lazy loads only once' *)
Example lazy_loads_only_once :
  journal (run_ops fixed_one [OpGet []; OpSet [num 1]] empty_world).2 =
  [EvImport; EvLookup "KV"; EvGet "fixed"; EvLookup "KV"; EvPut "fixed" "1" 60].
Proof. vm_compute. reflexivity. Qed.

(** 'defaultSet handles undefined value from cached function' *)
Example undefined_result_is_not_put :
  observed (run_ops undef_test [OpCache VUndefined []] empty_world) =
  ([Normal VUndefined], ["undef-test"], [], []).
Proof. vm_compute. reflexivity. Qed.

End Replay.

(** The tests with a throwing [KV.get] and a throwing [KV.put]. *)
Example defaultGet_catches_get_errors :
  (get (store_ops := FakeKV_get_boom) (platform := test_platform)
     fixed_one [] empty_world).1 = Normal VUndefined.
Proof. vm_compute. reflexivity. Qed.

Example defaultSet_catches_put_errors :
  (set (store_ops := FakeKV_put_boom) (platform := test_platform)
     fixed_one [num 123] empty_world).1 = Normal VUndefined.
Proof. vm_compute. reflexivity. Qed.

(** C9, against the code.  A binding option that is set to the empty
    string is not a non-empty string, yet the wrap does not throw:
    [opts.binding || 'KV'] replaces it by ['KV'] before the [assert] that
    the binding is a string whose length is positive, so that [kvCache]
    returns a closure whose binding is ["KV"].  The wrap that the test
    'validates ttl, binding, and key' expects to throw for
    [{ binding: '' }] does throw, but at the [assert] of the key, its
    function being an arrow function without a name. *)
Theorem empty_binding_is_accepted :
  nonempty_string
    (opt_binding (Object_assign ttl_60 (with_binding (VStr "") key_fixed))) = false /\
  (exists inst,
     kvCache ttl_60 one (with_binding (VStr "") key_fixed) = Normal inst /\
     binding inst = "KV") /\
  kvCache ttl_60 arrow_1 (with_binding (VStr "") no_options) =
  Throw (TypeError "`key` must be string or function!").
Proof.
  split; [reflexivity|]. split; [|reflexivity].
  eexists. split; reflexivity.
Qed.

(** A binding option that is set to a falsy value (the empty string, 0,
    [null], [false]) is replaced by ['KV'], as an absent one is, and the
    wrap succeeds. *)
Remark falsy_binding_defaults_to_KV :
  Forall (fun b => exists inst,
            kvCache ttl_60 one (with_binding b key_fixed) = Normal inst /\
            binding inst = "KV")
         [VStr ""; num 0; VNull; VBool false; VUndefined; VNum NaN].
Proof. repeat constructor; eexists; split; reflexivity. Qed.

(** * The properties on the fake store of the tests *)

Section OnTheFake.

#[local] Existing Instance test_platform.

(** The fake keeps what is put. *)
Lemma FakeKV_keeps (k text : string) (n : Z) (s : FakeKV) :
  exists s',
    kv_put (KVStore := FakeKV_store) k text n s = (Normal tt, s') /\
    exists s'', kv_get (KVStore := FakeKV_store) k s' = (Normal (Some text), s'').
Proof.
  eexists. split; [reflexivity|].
  eexists. cbn. unfold FakeKV_get. cbn. rewrite lookup_insert_eq. reflexivity.
Qed.

(** A [ttl] of 59, a [ttl] that is the string ["60"], and no [ttl], are
    rejected; [ttl: 60] is accepted. *)
Lemma ttl_validated_at_wrap_time_witness :
  is_TypeError (kvCache ttl_60 one (with_ttl (num 59) key_fixed)) = true /\
  is_TypeError (kvCache ttl_60 one (with_ttl (VStr "60") key_fixed)) = true /\
  is_TypeError (kvCache no_options one key_fixed) = true /\
  is_Normal (kvCache ttl_60 one key_fixed) = true.
Proof.
  split; [|split; [|split]].
  - apply (proj1 (ttl_validated_at_wrap_time ttl_60 one (with_ttl (num 59) key_fixed))).
    intros q Hq. injection Hq as <-. reflexivity.
  - apply (proj1 (ttl_validated_at_wrap_time ttl_60 one (with_ttl (VStr "60") key_fixed))).
    intros q Hq. discriminate Hq.
  - apply (proj1 (proj2 (ttl_validated_at_wrap_time no_options one key_fixed))).
    reflexivity.
  - apply (proj2 (proj2 (ttl_validated_at_wrap_time ttl_60 one key_fixed)));
      reflexivity.
Defined.

(** A binding that is the number 5 is rejected by the first [assert];
    without a binding option the binding is ["KV"]. *)
Lemma binding_validated_at_wrap_time_witness :
  kvCache ttl_60 one (with_binding (num 5) key_fixed) =
  Throw (TypeError "binding must be a non-empty string (KV binding name)") /\
  exists inst, kvCache ttl_60 one key_fixed = Normal inst /\ binding inst = "KV".
Proof.
  split.
  - apply (proj1 (binding_validated_at_wrap_time ttl_60 one
                    (with_binding (num 5) key_fixed))).
    reflexivity.
  - apply (proj2 (binding_validated_at_wrap_time ttl_60 one key_fixed));
      reflexivity.
Defined.

(** [factory(() => 1)] throws. *)
Lemma anonymous_function_needs_a_key_witness :
  is_TypeError (kvCache ttl_60 arrow_1 no_options) = true /\
  kvCache ttl_60 arrow_1 no_options =
  Throw (TypeError "`key` must be string or function!").
Proof.
  pose proof (anonymous_function_needs_a_key ttl_60 arrow_1 no_options
                eq_refl eq_refl eq_refl) as (_ & _ & Ht & _ & Hm).
  split; [exact Ht | apply Hm; reflexivity].
Defined.

(** [key: () => false]: the call returns what [fn] returns and the fake
    is as created. *)
Lemma bypass_calls_fn_only_witness :
  let (result, w') := cache (store_ops := FakeKV_store) bypassing_one VUndefined [num 1] empty_world in
  result = Normal (num 1) /\
  runtimeCache w' = None /\
  store w' = createFakeKV /\
  journal w' = [EvFn VUndefined [num 1]].
Proof.
  exact (bypass_calls_fn_only (store_ops := FakeKV_store) bypassing_one
           key_false VUndefined [num 1] empty_world eq_refl eq_refl).
Defined.

(** [cache.set(undefined)] and a [set] whose key function returns
    [false]. *)
Lemma set_skips_undefined_and_bypass_witness :
  (set (store_ops := FakeKV_store) fixed_one ([] ++ [VUndefined]) empty_world).2 = empty_world /\
  set (store_ops := FakeKV_store) bypassing_one ([num 1] ++ [num 2]) empty_world =
  (Normal VUndefined, empty_world).
Proof.
  split.
  - exact (proj1 (set_skips_undefined_and_bypass (store_ops := FakeKV_store)
                    fixed_one [] empty_world)).
  - apply (proj2 (set_skips_undefined_and_bypass (store_ops := FakeKV_store)
                    bypassing_one [num 1] empty_world)).
    reflexivity.
Defined.

(** A miss of the fake, a fake whose [get] throws, and a stored
    ['not-json']. *)
Lemma defaultGet_never_throws_witness :
  (defaultGet (store_ops := FakeKV_store) "bad" empty_world).1 = Normal VUndefined /\
  (defaultGet (store_ops := FakeKV_get_boom) "err" empty_world).1 = Normal VUndefined /\
  (defaultGet (store_ops := FakeKV_store) "bad" malformed_world).1 = Normal VUndefined.
Proof.
  split; [|split].
  - eapply (proj1 (proj2 (defaultGet_never_throws (store_ops := FakeKV_store)
                            "bad" empty_world))).
    reflexivity.
  - eapply (proj1 (proj2 (proj2 (defaultGet_never_throws
                            (store_ops := FakeKV_get_boom) "err" empty_world)))).
    reflexivity.
  - eapply (proj2 (proj2 (proj2 (defaultGet_never_throws
                            (store_ops := FakeKV_store) "bad" malformed_world)))
              "not-json").
    + reflexivity.
    + reflexivity.
Defined.

(** With ['fixed'] seeded as ['1'], the call reads the entry and returns
    1, and two calls in a row do not call [fn]. *)
Lemma cache_hit_skips_fn_witness :
  (cache (store_ops := FakeKV_store) fixed_one VUndefined [] seeded_world).1 = Normal (num 1) /\
  count_events is_fn
    (journal (run_ops (store_ops := FakeKV_store) fixed_one
                [OpCache VUndefined []; OpCache VUndefined []] seeded_world).2) = 0%nat.
Proof.
  pose (w1 := (resolveKV fixed_one seeded_world).2).
  pose (w' := (call_getter (store_ops := FakeKV_store) fixed_one "fixed" w1).2).
  assert (Hreads : reads (store_ops := FakeKV_store) fixed_one [] seeded_world
                     "fixed" (num 1) w').
  { exists (Some a_store), w1. repeat split; vm_compute; reflexivity. }
  assert (Hv : num 1 <> VUndefined) by discriminate.
  destruct (cache_hit_skips_fn (store_ops := FakeKV_store) fixed_one VUndefined []
              seeded_world "fixed" (num 1) w' Hreads Hv) as (Hrun & _ & Hle).
  split.
  - rewrite Hrun. reflexivity.
  - vm_compute in Hle. vm_compute. lia.
Defined.

(** [cache.set(7, 777)] then [cache.get(7)] on the fake. *)
Lemma set_then_get_round_trip_witness :
  (get (store_ops := FakeKV_store) keyed_identity [num 7]
     (set (store_ops := FakeKV_store) keyed_identity ([num 7] ++ [num 777]) empty_world).2).1 =
  Normal (num 777).
Proof.
  refine (proj2 (set_then_get_round_trip (store_ops := FakeKV_store) keyed_identity
                   [num 7] (num 777) "p:k:7" "777" empty_world
                   eq_refl eq_refl _ eq_refl eq_refl eq_refl eq_refl _)).
  - discriminate.
  - intros s. apply FakeKV_keeps.
Defined.


(** A miss on a fake whose [put] throws returns what [fn] returned; so
    does a miss with a [set] option that returns; a miss with a [set]
    option that throws, throws. *)
Lemma miss_returns_result_unless_set_throws_witness :
  (cache (store_ops := FakeKV_put_boom) fixed_one VUndefined [] empty_world).1 = Normal (num 1) /\
  (cache (store_ops := FakeKV_store) returning_set_one VUndefined [] empty_world).1 =
  Normal (num 1) /\
  (cache (store_ops := FakeKV_store) failing_set_one VUndefined [] empty_world).1 =
  Throw (OtherError "boom").
Proof.
  split; [|split].
  - pose (w1 := (resolveKV fixed_one empty_world).2).
    pose (w' := (call_getter (store_ops := FakeKV_put_boom) fixed_one "fixed" w1).2).
    assert (Hreads : reads (store_ops := FakeKV_put_boom) fixed_one [] empty_world
                       "fixed" VUndefined w').
    { exists (Some a_store), w1. repeat split; vm_compute; reflexivity. }
    exact (proj1 (miss_returns_result_unless_set_throws (store_ops := FakeKV_put_boom)
                    fixed_one VUndefined [] empty_world "fixed" w' (num 1)
                    Hreads eq_refl) eq_refl).
  - pose (w1 := (resolveKV returning_set_one empty_world).2).
    pose (w' := (call_getter (store_ops := FakeKV_store) returning_set_one "fixed" w1).2).
    assert (Hreads : reads (store_ops := FakeKV_store) returning_set_one [] empty_world
                       "fixed" VUndefined w').
    { exists (Some a_store), w1. repeat split; vm_compute; reflexivity. }
    exact (proj1 (proj2 (miss_returns_result_unless_set_throws (store_ops := FakeKV_store)
                    returning_set_one VUndefined [] empty_world "fixed" w' (num 1)
                    Hreads eq_refl)) returning_set (VObj [])
                    (seed "fixed" "kept" (store w')) eq_refl eq_refl).
  - pose (w1 := (resolveKV failing_set_one empty_world).2).
    pose (w' := (call_getter (store_ops := FakeKV_store) failing_set_one "fixed" w1).2).
    assert (Hreads : reads (store_ops := FakeKV_store) failing_set_one [] empty_world
                       "fixed" VUndefined w').
    { exists (Some a_store), w1. repeat split; vm_compute; reflexivity. }
    exact (proj2 (proj2 (miss_returns_result_unless_set_throws (store_ops := FakeKV_store)
                    failing_set_one VUndefined [] empty_world "fixed" w' (num 1)
                    Hreads eq_refl)) failing_set (OtherError "boom") (store w')
                    eq_refl eq_refl).
Defined.


(** C2, as stated, fails: with a [set] option that throws, a call that
    misses and whose [fn] returns 1 does not return 1: it throws what the
    set-strategy threw. *)
Lemma custom_set_failure_is_surfaced :
  (get (store_ops := FakeKV_store) failing_set_one [] empty_world).1 = Normal VUndefined /\
  fn_apply (fn failing_set_one) VUndefined [] = Normal (num 1) /\
  (cache (store_ops := FakeKV_store) failing_set_one VUndefined [] empty_world).1 =
  Throw (OtherError "boom") /\
  (cache (store_ops := FakeKV_store) failing_set_one VUndefined [] empty_world).1 <>
  Normal (num 1).
Proof. vm_compute. repeat split; try reflexivity. discriminate. Qed.

End OnTheFake.

(** * More of the wrapper *)

(** ** The factory and the validation of the options *)

Section MoreWrapTime.

Context {S : Type}.
Implicit Types (options fnOptions opts : Options S) (fn : Fn).

(** X1.  [CloudflareKVCache] throws its [TypeError] exactly when it is
    given a boolean, a number, a bigint, a string, a symbol or a function,
    that is, an argument whose [typeof] is neither ['undefined'] nor
    ['object']; with no argument, with [undefined] and with [null] it
    returns the [kvCache] of no options, and with an object the [kvCache]
    of its options. *)
Theorem factory_accepts_objects_only (arg : FactoryArg S) :
  (CloudflareKVCache arg = Throw (TypeError "`options` must be object!") <->
   typeof_arg arg <> "undefined" /\ typeof_arg arg <> "object") /\
  (typeof_arg arg <> "undefined" /\ typeof_arg arg <> "object" <->
   arg = FunctionArgument \/ arg = SymbolArgument \/
   (exists n, arg = BigIntArgument n) \/
   exists v, arg = DataArgument v /\
             (typeof v = "boolean" \/ typeof v = "number" \/ typeof v = "string")) /\
  (is_Normal (CloudflareKVCache arg) = false ->
   CloudflareKVCache arg = Throw (TypeError "`options` must be object!")) /\
  (arg = NoArgument \/ arg = DataArgument VUndefined \/ arg = DataArgument VNull ->
   CloudflareKVCache arg = Normal (kvCache no_options)) /\
  (forall o, arg = OptionsArgument o ->
             CloudflareKVCache arg = Normal (kvCache o)).
Proof.
  split; [|split; [|split; [|split]]].
  - destruct arg as [|v| |n| |o]; cbn; try (split; [discriminate | intros []; congruence]);
      try (split; [intros _; split; discriminate | reflexivity]).
    destruct v; cbn;
      try (split; [discriminate | intros []; congruence]);
      split; try reflexivity; intros _; split; discriminate.
  - split.
    + destruct arg as [|v| |n| |o]; cbn; intros [Hu Ho]; try congruence; eauto.
      destruct v; cbn in *; try congruence; do 3 right; eauto 6.
    + intros [->|[->|[(n & ->)|(v & -> & Hv)]]]; cbn;
        try (split; discriminate).
      destruct Hv as [Hv|[Hv|Hv]]; rewrite Hv; split; discriminate.
  - destruct arg as [|v| |n| |o]; cbn; try discriminate; try reflexivity.
    destruct v; cbn; try discriminate; reflexivity.
  - intros [->|[->| ->]]; reflexivity.
  - intros o ->. reflexivity.
Qed.

Lemma nonempty_length (s : string) : (0 <? String.length s)%nat = true <-> s <> "".
Proof.
  destruct s; cbn; split; try congruence; try discriminate; reflexivity.
Qed.

Lemma truthy_string (s : string) : truthy (VStr s) = true <-> s <> "".
Proof.
  cbn. destruct s; cbn; split; try congruence; try discriminate; reflexivity.
Qed.

Lemma valid_binding_iff (b : slot unit) :
  valid_binding (or_else b (Val (VStr "KV"))) = true <->
  truthy_slot b = false \/ exists s, b = Val (VStr s) /\ s <> "".
Proof.
  unfold or_else. destruct (truthy_slot b) eqn:T.
  - split.
    + intros Hv. right.
      destruct b as [|[]|]; cbn in Hv; try discriminate.
      eexists. split; [reflexivity|]. now apply truthy_string.
    + intros [Hf|(s & -> & Hs)]; [discriminate|].
      unfold valid_binding, nonempty_string. cbn. now apply nonempty_length.
  - split; [auto | reflexivity].
Qed.

Lemma valid_key_iff (k : slot KeyFn) (name : string) :
  valid_key (or_else k (Val (VStr name))) = true <->
  (exists s, k = Val (VStr s) /\ s <> "") \/
  (exists f, k = Callable f) \/
  (truthy_slot k = false /\ name <> "").
Proof.
  unfold or_else. destruct (truthy_slot k) eqn:T.
  - split.
    + intros Hv. destruct k as [|[]|f]; unfold valid_key in Hv; cbn in Hv, T;
        rewrite ?andb_false_r in Hv; try discriminate.
      * left. eexists. split; [reflexivity|]. now apply truthy_string.
      * right. left. eauto.
    + intros [(s & -> & Hs)|[(f & ->)|[Hf _]]]; [| |discriminate].
      * unfold valid_key. cbn. apply truthy_string in Hs. cbn in Hs.
        now rewrite Hs.
      * reflexivity.
  - split.
    + intros Hv. right. right. split; [reflexivity|].
      unfold valid_key in Hv. cbn in Hv.
      apply truthy_string. cbn. now destruct (negb (String.eqb name "")).
    + intros [(s & -> & Hs)|[(f & ->)|[_ Hn]]].
      * apply truthy_string in Hs. cbn in T, Hs. congruence.
      * discriminate.
      * unfold valid_key. cbn. apply truthy_string in Hn. cbn in Hn.
        now rewrite Hn.
Qed.

Lemma valid_ttl_iff (t : slot unit) :
  valid_ttl t = true <->
  exists q, t = Val (VNum (Fin q)) /\ (Qc_of_Z 60 <= q)%Qc.
Proof.
  unfold valid_ttl. split.
  - intros Hv. destruct t as [|[| | |[| | |q]| | |]|]; cbn in Hv; try discriminate.
    exists q. split; [reflexivity|]. now apply Qle_bool_iff in Hv.
  - intros (q & -> & Hq). cbn. now apply Qle_bool_iff.
Qed.

(** X2.  The configurations that [kvCache] accepts: the binding is falsy
    (then ['KV'] is used) or a non-empty string; the key is a non-empty
    string or a function, or it is falsy and the function has a name; and
    the ttl is a finite number that is at least 60. *)
Theorem kvCache_accepts_exactly options fn fnOptions :
  let opts := Object_assign options fnOptions in
  is_Normal (kvCache options fn fnOptions) = true <->
  (truthy_slot (opt_binding opts) = false \/
   exists s, opt_binding opts = Val (VStr s) /\ s <> "") /\
  ((exists s, opt_key opts = Val (VStr s) /\ s <> "") \/
   (exists f, opt_key opts = Callable f) \/
   (truthy_slot (opt_key opts) = false /\ fn_name fn <> "")) /\
  (exists q, opt_ttl opts = Val (VNum (Fin q)) /\ (Qc_of_Z 60 <= q)%Qc).
Proof.
  intros opts. rewrite kvCache_accepts. fold opts.
  rewrite !andb_true_iff.
  unfold resolved_binding, resolved_key.
  rewrite valid_binding_iff, valid_key_iff, valid_ttl_iff. tauto.
Qed.

Lemma floor_at_least_60 (q : Qc) : (Qc_of_Z 60 <= q)%Qc -> 60 <= Math_floor q.
Proof.
  intros Hq. unfold Math_floor.
  rewrite <- (Qfloor_Z 60). apply Qfloor_resp_le. exact Hq.
Qed.

(** X3.  What every closure that [kvCache] returns captures: the function
    it was given, a binding that is not empty, a ttl of at least 60, whose
    floor (what [defaultSet] gives to [put]) is at least 60 too, and a key
    generator that is a function or a string that is not empty. *)
Theorem kvCache_instance_invariant options (f : Fn) fnOptions (inst : Instance S) :
  kvCache options f fnOptions = Normal inst ->
  fn inst = f /\
  binding inst <> "" /\
  (Qc_of_Z 60 <= ttl inst)%Qc /\
  60 <= Math_floor (ttl inst) /\
  match keyGenerator inst with
  | KeyString s => s <> ""
  | KeyFunction _ => True
  end.
Proof.
  intros Hk. unfold kvCache in Hk. cbv zeta in Hk.
  rewrite prefix_always_valid in Hk.
  destruct (valid_binding _) eqn:Hb; [|discriminate Hk].
  destruct (valid_key _) eqn:Hkey; [|discriminate Hk].
  destruct (valid_ttl _) eqn:Ht; [|discriminate Hk].
  cbn in Hk. injection Hk as <-. cbn [fn binding ttl keyGenerator].
  unfold resolved_binding in *. unfold resolved_key in *.
  apply valid_ttl_iff in Ht. destruct Ht as (q & Hq & Hle).
  assert (Hbinding : string_of_slot
            (or_else (opt_binding (Object_assign options fnOptions))
               (Val (F := unit) (VStr "KV"))) <> "").
  { unfold or_else in *.
    destruct (truthy_slot (opt_binding (Object_assign options fnOptions)));
      [|discriminate].
    destruct (opt_binding (Object_assign options fnOptions)) as [|[]|];
      try discriminate Hb.
    unfold valid_binding, nonempty_string in Hb. cbn in Hb |- *.
    now apply nonempty_length. }
  split; [reflexivity|]. split; [exact Hbinding|].
  cbn [opt_ttl Object_assign] in Hq. rewrite Hq. cbn [number_of_slot].
  split; [exact Hle|]. split; [now apply floor_at_least_60|].
  unfold or_else in *.
  destruct (truthy_slot (opt_key (Object_assign options fnOptions))) eqn:T.
  - destruct (opt_key (Object_assign options fnOptions)) as [|[]|g];
      unfold valid_key in Hkey; cbn in Hkey, T |- *;
      rewrite ?andb_false_r in Hkey; try discriminate; [|exact I].
    now apply truthy_string.
  - cbn. unfold valid_key in Hkey. cbn in Hkey.
    apply truthy_string. cbn. now destruct (negb (String.eqb (fn_name f) "")).
Qed.

Lemma kvCache_of_merged options fn fnOptions options' fnOptions' :
  Object_assign options fnOptions = Object_assign options' fnOptions' ->
  kvCache options fn fnOptions = kvCache options' fn fnOptions'.
Proof. intros Hm. unfold kvCache. cbv zeta. now rewrite Hm. Qed.

(** X4.  The prefix never makes the wrap fail: giving any value as the
    prefix leaves the outcome of the validation as it is, and the closure
    captures that value when it is a string and the empty string
    otherwise. *)
Theorem prefix_coerced_never_rejected options fn fnOptions (p : value) :
  is_Normal (kvCache options fn (with_prefix p fnOptions)) =
  is_Normal (kvCache options fn fnOptions) /\
  forall inst : Instance S,
    kvCache options fn (with_prefix p fnOptions) = Normal inst ->
    prefix inst = match p with VStr s => s | _ => "" end.
Proof.
  split.
  - rewrite !kvCache_accepts. reflexivity.
  - intros inst Hk. unfold kvCache in Hk. cbv zeta in Hk.
    rewrite prefix_always_valid in Hk.
    destruct (valid_binding _), (valid_key _), (valid_ttl _);
      cbn in Hk; try discriminate.
    injection Hk as <-. cbn. destruct p; reflexivity.
Qed.

(** X5.  The options of the wrap take precedence over the options of the
    factory, property by property, here for the ttl: a ttl given to the
    wrap makes the ttl of the factory irrelevant, even when it is given as
    [undefined], in which case the wrap throws whatever the factory had;
    and a ttl given to the factory only is used as if given to the wrap. *)
Theorem wrap_ttl_takes_precedence options fn fnOptions (t t' : value) :
  kvCache (with_ttl t' options) fn (with_ttl t fnOptions) =
  kvCache options fn (with_ttl t fnOptions) /\
  is_TypeError (kvCache (with_ttl t' options) fn (with_ttl VUndefined fnOptions)) = true /\
  (opt_ttl fnOptions = Absent ->
   kvCache (with_ttl t options) fn fnOptions =
   kvCache options fn (with_ttl t fnOptions)).
Proof.
  split; [|split].
  - apply kvCache_of_merged. reflexivity.
  - apply kvCache_throws_TypeError. rewrite kvCache_accepts. cbn.
    now rewrite andb_false_r.
  - intros Ha. apply kvCache_of_merged.
    unfold Object_assign. cbn. rewrite Ha. reflexivity.
Qed.

End MoreWrapTime.

(** ** The operations, one by one *)

Section MoreCalls.

Context {S : Type} {store_ops : KVStore S} {platform : Platform}.
Variable self : Instance S.
Implicit Types (w : World S) (args : list value) (this v : value) (op : Op).

Lemma derived_key_Some op k :
  derived_key self op = Some k ->
  exists args, key_args op = Some args /\ computeKey self args = Normal (Key k).
Proof.
  unfold derived_key. destruct (key_args op) as [args|]; [|discriminate].
  destruct (computeKey self args) as [[|k']|e] eqn:E; try discriminate.
  intros [= <-]. eauto.
Qed.

Lemma reaches_store_key op :
  reaches_store self op = true -> exists k, derived_key self op = Some k.
Proof.
  unfold reaches_store. destruct (derived_key self op); [eauto | discriminate].
Qed.

(** X6.  When the derivation of the key throws, the operation throws the
    same and nothing else happens: the world is as before.  That is so
    when the key function throws, and when it returns a value that is
    neither a string nor [false], [true] included, the error being then
    the [TypeError] of [computeKey]. *)
Theorem key_error_stops_operation op args w :
  key_args op = Some args ->
  (forall e, computeKey self args = Throw e ->
             run_op self op w = (Throw e, w)) /\
  (forall (f : KeyFn) e,
     keyGenerator self = KeyFunction f -> f args = Throw e ->
     run_op self op w = (Throw e, w)) /\
  (forall (f : KeyFn) v,
     keyGenerator self = KeyFunction f -> f args = Normal v ->
     v <> VBool false -> (forall s, v <> VStr s) ->
     run_op self op w =
     (Throw (TypeError "key function must return a string or false"), w)).
Proof.
  intros Hargs.
  assert (Hstop : forall e, computeKey self args = Throw e ->
                            run_op self op w = (Throw e, w)).
  { intros e He.
    destruct op; cbn in Hargs; try discriminate; injection Hargs as <-; cbn;
      [unfold cache | unfold get | unfold set; cbv zeta | unfold clear];
      rewrite bind_run, lift_run, He; reflexivity. }
  split; [exact Hstop|]. split.
  - intros f e Hk Hf. apply Hstop. unfold computeKey. now rewrite Hk, Hf.
  - intros f v Hk Hf Hfalse Hstr. apply Hstop. unfold computeKey.
    rewrite Hk, Hf. cbn.
    destruct v as [| |[|]| |s| |]; try reflexivity.
    + congruence.
    + exfalso. exact (Hstr s eq_refl).
Qed.

(** X9.  An operation that does not reach the store (no key is derived,
    the key is [false], or [set] is given [undefined]; [raw] always) leaves
    [runtimeCache] and the store as they are, and adds nothing to the
    journal but, for [raw] and for a call whose key is [false], the call of
    [fn]. *)
Theorem unreached_store_is_untouched op w :
  reaches_store self op = false ->
  (run_op self op w).2 = w \/
  exists this args,
    (op = OpRaw this args \/
     op = OpCache this args /\ computeKey self args = Normal KeyFalse) /\
    (run_op self op w).2 = after (EvFn this args) w.
Proof.
  unfold reaches_store, derived_key.
  destruct op as [this args|this args|args|argsAndValue|args]; cbn.
  - unfold cache. rewrite bind_run, lift_run.
    destruct (computeKey self args) as [[|k]|e] eqn:Hk; try discriminate; intros _.
    + right. exists this, args. rewrite fn_apply_run. auto.
    + left. reflexivity.
  - intros _. right. exists this, args. unfold raw. rewrite fn_apply_run. auto.
  - unfold get. rewrite bind_run, lift_run.
    destruct (computeKey self args) as [[|k]|e]; try discriminate;
      intros _; left; reflexivity.
  - unfold set. cbv zeta. rewrite bind_run, lift_run.
    destruct (computeKey self _) as [[|k]|e]; intros Hu; left; try reflexivity.
    apply negb_false_iff in Hu. rewrite Hu. reflexivity.
  - unfold clear. rewrite bind_run, lift_run.
    destruct (computeKey self args) as [[|k]|e]; try discriminate;
      intros _; left; reflexivity.
Qed.

(** An operation that reaches the store and whose [resolveKV] throws stops
    there. *)
Lemma resolveKV_failure_stops op w e w1 :
  reaches_store self op = true ->
  resolveKV self w = (Throw e, w1) ->
  run_op self op w = (Throw e, w1).
Proof.
  unfold reaches_store, derived_key. intros Hreach Hr.
  destruct op as [this args|this args|args|argsAndValue|args]; cbn in *;
    try discriminate.
  - unfold cache. rewrite bind_run, lift_run.
    destruct (computeKey self args) as [[|k]|e']; try discriminate.
    rewrite bind_run, Hr. reflexivity.
  - unfold get. rewrite bind_run, lift_run.
    destruct (computeKey self args) as [[|k]|e']; try discriminate.
    rewrite bind_run, Hr. reflexivity.
  - unfold set. cbv zeta. rewrite bind_run, lift_run.
    destruct (computeKey self _) as [[|k]|e']; try discriminate.
    apply negb_true_iff in Hreach. rewrite Hreach, bind_run, Hr. reflexivity.
  - unfold clear. rewrite bind_run, lift_run.
    destruct (computeKey self args) as [[|k]|e']; try discriminate.
    rewrite bind_run, Hr. reflexivity.
Qed.

(** X10.  When the runtime module binds no store with the three operations
    to the binding of the instance (nothing, or an object that lacks one of
    [get], [put], [delete]), every operation that reaches the store throws
    the [TypeError] that names the binding; [fn] is not called, the store
    is not called, and the module is memoized all the same. *)
Theorem unbound_store_fails_operation op w (m : RuntimeModule) :
  reaches_store self op = true ->
  runtime_module w = Normal m ->
  valid_KV (env m !! binding self) = false ->
  let (result, w') := run_op self op w in
  result = Throw (binding_error self) /\
  runtimeCache w' = Some m /\
  store w' = store w /\
  count_events is_fn (journal w') = count_events is_fn (journal w) /\
  count_events is_store_call (journal w') = count_events is_store_call (journal w).
Proof.
  intros Hreach Hm Hinvalid. unfold runtime_module in Hm.
  destruct (runtimeCache w) as [m'|] eqn:Hc.
  - injection Hm as ->.
    pose proof (resolveKV_cached self w m Hc) as Hr. rewrite Hinvalid in Hr.
    rewrite (resolveKV_failure_stops op w _ _ Hreach Hr).
    rewrite !count_events_after. cbn. repeat split; auto; lia.
  - pose proof (resolveKV_imports self w m Hc Hm) as Hr. rewrite Hinvalid in Hr.
    rewrite (resolveKV_failure_stops op w _ _ Hreach Hr).
    rewrite !count_events_after. cbn. rewrite !count_events_app. cbn.
    repeat split; auto; lia.
Qed.

(** X11.  When the import of the runtime module throws, an operation that
    reaches the store throws the same, and nothing is memoized: the world
    only gains the import in its journal, so that the next operation
    imports again. *)
Theorem failed_import_is_not_memoized op w e :
  reaches_store self op = true ->
  runtimeCache w = None ->
  cloudflare_workers = Throw e ->
  run_op self op w = (Throw e, after EvImport w) /\
  runtimeCache (run_op self op w).2 = None /\
  forall op', reaches_store self op' = true ->
    imports (run_op self op' (run_op self op w).2).2 = (imports w + 2)%nat.
Proof.
  intros Hreach Hc Hi.
  assert (Hrun : forall op0 w0, reaches_store self op0 = true ->
                   runtimeCache w0 = None ->
                   run_op self op0 w0 = (Throw e, after EvImport w0)).
  { intros op0 w0 H0 Hc0. apply resolveKV_failure_stops; [exact H0|].
    now apply resolveKV_import_fails. }
  rewrite (Hrun op w Hreach Hc). cbn [snd].
  split; [reflexivity|]. split; [exact Hc|].
  intros op' Hreach'. rewrite (Hrun op' (after EvImport w) Hreach' Hc). cbn [snd].
  unfold imports. rewrite !count_events_after. cbn. lia.
Qed.

(** *** What an operation keeps, from what its parts keep *)

Section OpKeeps.

Variable R : World S -> World S -> Prop.
Hypothesis R_refl : forall w, R w w.
Hypothesis R_trans : forall w1 w2 w3, R w1 w2 -> R w2 w3 -> R w1 w3.

Lemma run_op_keeps op :
  (reaches_store self op = true -> keeps R (resolveKV self)) ->
  (forall this args, op = OpCache this args \/ op = OpRaw this args ->
                     keeps R (fn_apply_ self this args)) ->
  (forall k, derived_key self op = Some k ->
             (exists a, op = OpGet a) \/ (exists t a, op = OpCache t a) ->
             keeps R (call_getter self k)) ->
  (forall k v, derived_key self op = Some k ->
               (exists a, op = OpSet a) \/ (exists t a, op = OpCache t a) ->
               keeps R (call_setter self k v)) ->
  (forall k, derived_key self op = Some k -> (exists a, op = OpClear a) ->
             keeps R (KV_delete k)) ->
  keeps R (run_op self op).
Proof.
  intros Hres Hfn Hget Hset Hdel w.
  unfold reaches_store, derived_key in *.
  destruct op as [this args|this args|args|argsAndValue|args]; cbn in *.
  - unfold cache. rewrite bind_run, lift_run.
    destruct (computeKey self args) as [[|k]|e]; [| |apply R_refl].
    + apply Hfn. auto.
    + apply (keeps_bind R R_trans); [auto|]. intros _.
      apply (keeps_bind R R_trans); [eauto 6|]. intros result.
      destruct (negb (is_undefined result)); [apply (keeps_ret R R_refl)|].
      apply (keeps_bind R R_trans); [auto|]. intros r.
      apply (keeps_bind R R_trans); [eauto 6|]. intros _.
      apply (keeps_ret R R_refl).
  - apply Hfn. auto.
  - unfold get. rewrite bind_run, lift_run.
    destruct (computeKey self args) as [[|k]|e]; try apply R_refl.
    apply (keeps_bind R R_trans); [auto|]. intros _. eauto 6.
  - unfold set. cbv zeta. rewrite bind_run, lift_run.
    destruct (computeKey self _) as [[|k]|e]; try apply R_refl.
    destruct (is_undefined _); [apply R_refl|]. cbn in Hres.
    apply (keeps_bind R R_trans); [auto|]. intros _. eauto 6.
  - unfold clear. rewrite bind_run, lift_run.
    destruct (computeKey self args) as [[|k]|e]; try apply R_refl.
    apply (keeps_bind R R_trans); [auto|]. intros _. eauto.
Qed.

End OpKeeps.

(** *** The journal an operation adds *)

Section Extends.

Variable ok : Event -> Prop.

Lemma extends_refl w : extends_with ok w w.
Proof. exists []. split; [now rewrite app_nil_r | constructor]. Qed.

Lemma extends_trans w1 w2 w3 :
  extends_with ok w1 w2 -> extends_with ok w2 w3 -> extends_with ok w1 w3.
Proof.
  intros (j1 & H1 & F1) (j2 & H2 & F2). exists (j1 ++ j2). split.
  - rewrite H2, H1. now rewrite <- app_assoc.
  - apply Forall_app. auto.
Qed.

Lemma extends_after e w : ok e -> extends_with ok w (after e w).
Proof. intros He. exists [e]. split; [reflexivity | repeat constructor; exact He]. Qed.

Lemma extends_same_journal w w' :
  journal w' = journal w -> extends_with ok w w'.
Proof. intros Hj. exists []. split; [now rewrite app_nil_r | constructor]. Qed.

Lemma extends_on_store {A} (f : S -> completion A * S) :
  keeps (extends_with ok) (on_store f).
Proof.
  intros w. unfold on_store. destruct (f (store w)). now apply extends_same_journal.
Qed.

Lemma extends_KV_get k : ok (EvGet k) -> keeps (extends_with ok) (KV_get k).
Proof.
  intros He w. rewrite KV_get_run. destruct (kv_get k (store w)). cbn.
  exists [EvGet k]. split; [reflexivity | repeat constructor; exact He].
Qed.

Lemma extends_KV_put k text (n : Z) :
  ok (EvPut k text n) -> keeps (extends_with ok) (KV_put k text n).
Proof.
  intros He w. rewrite KV_put_run. destruct (kv_put k text n (store w)). cbn.
  exists [EvPut k text n]. split; [reflexivity | repeat constructor; exact He].
Qed.

Lemma extends_KV_delete k : ok (EvDelete k) -> keeps (extends_with ok) (KV_delete k).
Proof.
  intros He w. unfold KV_delete. rewrite bind_run. cbn. unfold on_store. cbn.
  destruct (kv_delete k (store w)). cbn.
  exists [EvDelete k]. split; [reflexivity | repeat constructor; exact He].
Qed.

Lemma extends_call_getter k :
  ok (EvGet k) -> keeps (extends_with ok) (call_getter self k).
Proof.
  intros He. unfold call_getter. destruct (getter self); [|apply extends_on_store].
  apply (keeps_try_catch _ extends_trans);
    [|intros; apply (keeps_ret _ extends_refl)].
  apply (keeps_bind _ extends_trans); [now apply extends_KV_get|].
  intros [text|]; [apply (keeps_lift _ extends_refl) | apply (keeps_ret _ extends_refl)].
Qed.

Lemma extends_call_setter k v :
  (forall text, ok (EvPut k text (Math_floor (ttl self)))) ->
  keeps (extends_with ok) (call_setter self k v).
Proof.
  intros He. unfold call_setter. destruct (setter self); [|apply extends_on_store].
  unfold defaultSet. destruct (is_undefined v); [apply (keeps_ret _ extends_refl)|].
  apply (keeps_try_catch _ extends_trans);
    [|intros; apply (keeps_ret _ extends_refl)].
  apply (keeps_bind _ extends_trans); [apply (keeps_lift _ extends_refl)|].
  intros text.
  apply (keeps_bind _ extends_trans); [apply extends_KV_put, He|].
  intros _. apply (keeps_ret _ extends_refl).
Qed.

Lemma extends_resolveKV :
  ok EvImport -> ok (EvLookup (binding self)) ->
  keeps (extends_with ok) (resolveKV self).
Proof.
  intros Hi Hl w. destruct (runtimeCache w) as [m|] eqn:Hc.
  - rewrite (resolveKV_cached self w m Hc). cbn [snd]. now apply extends_after.
  - destruct cloudflare_workers as [m|e] eqn:Hm.
    + rewrite (resolveKV_imports self w m Hc Hm). cbn [snd].
      exists [EvImport; EvLookup (binding self)]. split.
      * cbn. now rewrite <- app_assoc.
      * repeat constructor; assumption.
    + rewrite (resolveKV_import_fails self w e Hc Hm). cbn [snd].
      now apply extends_after.
Qed.

Lemma extends_fn_apply this args :
  ok (EvFn this args) -> keeps (extends_with ok) (fn_apply_ self this args).
Proof. intros He w. rewrite fn_apply_run. cbn [snd]. now apply extends_after. Qed.

End Extends.

(** X7.  What each operation may add to the journal, and so what it never
    does.  The import and the lookup of the binding are made only by an
    operation that reaches the store; [get] on the store is called only by
    [get] and by a call, [put] only by [set] and by a call, [delete] only
    by [clear]; each of them with the key that the operation derived from
    its arguments and no other, and [put] with the floor of the ttl; and
    [fn] is called only by a call and by [raw], on their own arguments. *)
Theorem operation_footprint op w :
  exists j,
    journal (run_op self op w).2 = journal w ++ j /\
    Forall (allowed self op) j.
Proof.
  apply (run_op_keeps (extends_with (allowed self op))
           (extends_refl _) (extends_trans _)).
  - intros Hreach. apply extends_resolveKV; cbn; auto.
  - intros this args [-> | ->]; apply extends_fn_apply; cbn; auto.
  - intros k Hk [(a & ->)|(t & a & ->)]; apply extends_call_getter; cbn; auto.
  - intros k v Hk [(a & ->)|(t & a & ->)]; apply extends_call_setter;
      intros text; cbn; auto.
  - intros k Hk (a & ->). apply extends_KV_delete. cbn. auto.
Qed.

Lemma prefix_append (p s : string) : String.prefix p (p +:+ s) = true.
Proof.
  induction p as [|c p IH]; simpl.
  - now destruct s.
  - destruct (Ascii.ascii_dec c c); [exact IH | congruence].
Qed.

Lemma computeKey_prefixed args k :
  computeKey self args = Normal (Key k) ->
  String.prefix (prefix self) k = true.
Proof.
  unfold computeKey. destruct (keyGenerator self) as [s|f].
  - intros [= <-]. apply prefix_append.
  - destruct (f args) as [[| |[|]| |s| |]|e]; cbn; try discriminate.
    intros [= <-]. apply prefix_append.
Qed.

Lemma derived_key_prefixed op k :
  derived_key self op = Some k -> String.prefix (prefix self) k = true.
Proof.
  intros Hk. apply derived_key_Some in Hk as (args & _ & Hk).
  eapply computeKey_prefixed, Hk.
Qed.

Lemma run_op_well_keyed op w :
  extends_with (well_keyed self) w (run_op self op w).2.
Proof.
  apply (run_op_keeps _ (extends_refl _) (extends_trans _)).
  - intros _. apply extends_resolveKV; exact I.
  - intros this args _. apply extends_fn_apply. exact I.
  - intros k Hk _. apply extends_call_getter. cbn.
    now apply (derived_key_prefixed op).
  - intros k v Hk _. apply extends_call_setter. intros text. cbn.
    split; [now apply (derived_key_prefixed op) | reflexivity].
  - intros k Hk _. apply extends_KV_delete. cbn.
    now apply (derived_key_prefixed op).
Qed.

(** X8.  Over any sequence of operations, every call that the wrapper
    makes on the store carries a key that begins with the prefix of the
    instance, and every [put] carries the floor of its ttl: if that holds
    of the journal before, it holds of the journal after. *)
Theorem store_calls_stay_well_keyed (ops : list Op) w :
  Forall (well_keyed self) (journal w) ->
  Forall (well_keyed self) (journal (run_ops self ops w).2).
Proof.
  revert w. induction ops as [|op ops IH]; intros w Hw; cbn; [exact Hw|].
  pose proof (run_op_well_keyed op w) as (j & Hj & Hall).
  destruct (run_op self op w) as [r w1]. cbn [snd] in Hj.
  specialize (IH w1). destruct (run_ops self ops w1) as [rs w2]. cbn [snd] in *.
  apply IH. rewrite Hj. apply Forall_app. split; [exact Hw | exact Hall].
Qed.

(** *** The default strategies *)

Lemma KV_delete_run k w :
  KV_delete k w =
  let '(r, s) := kv_delete k (store w) in
  (r, {| runtimeCache := runtimeCache w;
         journal := journal w ++ [EvDelete k];
         store := s |}).
Proof. unfold KV_delete. rewrite bind_run. reflexivity. Qed.

(** X18.  [defaultSet] is best effort: it returns [undefined] whatever
    happens; given [undefined], or a value that [JSON.stringify] throws on,
    it leaves the world as it is; given another value it calls [put] once,
    with the key, the text of the value and the floor of the ttl, and
    whether [put] returns or throws makes no difference to its result. *)
Theorem defaultSet_is_best_effort (key : string) v (t : Qc) w :
  let (r, w') := defaultSet key v t w in
  r = Normal VUndefined /\
  runtimeCache w' = runtimeCache w /\
  (v = VUndefined -> w' = w) /\
  (forall e, JSON_stringify v = Throw e -> w' = w) /\
  (forall text, v <> VUndefined -> JSON_stringify v = Normal text ->
     journal w' = journal w ++ [EvPut key text (Math_floor t)] /\
     store w' = (kv_put key text (Math_floor t) (store w)).2).
Proof.
  unfold defaultSet. destruct (is_undefined v) eqn:Hu.
  - assert (Hv : v = VUndefined) by (destruct v; cbn in Hu; congruence).
    cbn. repeat split; auto; intros; congruence.
  - assert (Hv : v <> VUndefined) by (intros ->; discriminate).
    unfold try_catch. rewrite bind_run, lift_run.
    destruct (JSON_stringify v) as [text|e] eqn:Hs.
    + rewrite bind_run, KV_put_run.
      destruct (kv_put key text (Math_floor t) (store w)) as [[[]|e] s'] eqn:Hp;
        cbn; (split; [reflexivity|]); (split; [reflexivity|]);
        (split; [intros; congruence|]); (split; [intros; discriminate|]);
        intros text' _ [= <-]; rewrite Hp; split; reflexivity.
    + cbn. repeat split; auto; intros; try congruence; discriminate.
Qed.

(** X19.  [defaultGet] calls [get] on the store once, with the key, and
    makes no other call; when the store answers a text that parses, it
    returns the parsed value (a stored ['null'] is returned as [null], not
    as a miss). *)
Theorem defaultGet_reads_the_key_once (key : string) w :
  let (r, w') := defaultGet key w in
  journal w' = journal w ++ [EvGet key] /\
  runtimeCache w' = runtimeCache w /\
  store w' = (kv_get key (store w)).2 /\
  (forall text v s', kv_get key (store w) = (Normal (Some text), s') ->
                     JSON_parse text = Normal v -> r = Normal v).
Proof.
  unfold defaultGet, try_catch. rewrite bind_run, KV_get_run.
  destruct (kv_get key (store w)) as [[[text|]|e] s]; cbn.
  - destruct (JSON_parse text) as [v|e] eqn:Hp; cbn;
      repeat split; auto; intros text' v' s' [= <- <-] Hp'; congruence.
  - repeat split; auto. intros; discriminate.
  - repeat split; auto. intros; discriminate.
Qed.

(** *** Calls that miss *)

Lemma reads_same_fn_calls args w k v w' :
  reads self args w k v w' ->
  count_events is_fn (journal w') = count_events is_fn (journal w).
Proof.
  intros (KV & w1 & Hk & Hr & Hg).
  pose proof (same_fn_calls_resolveKV self w) as H1. rewrite Hr in H1.
  pose proof (same_fn_calls_call_getter self k w1) as H2. rewrite Hg in H2.
  unfold same_fn_calls in *. cbn [snd] in *. congruence.
Qed.

(** X16.  With the default set-strategy, a call that misses and whose
    [fn] returns [undefined] returns [undefined] and stores nothing: after
    the read, the world only gains the call of [fn]. *)
Theorem undefined_result_is_not_stored this args w k w' :
  setter self = defaultSet_ ->
  reads self args w k VUndefined w' ->
  fn_apply (fn self) this args = Normal VUndefined ->
  cache self this args w = (Normal VUndefined, after (EvFn this args) w').
Proof.
  intros Hs Hreads Hfn.
  rewrite (cache_miss_run self this args w k w' Hreads).
  rewrite bind_run, fn_apply_run, Hfn, bind_run.
  unfold call_setter. rewrite Hs. reflexivity.
Qed.

(** X17.  When a call misses and [fn] throws, the call throws the same,
    and the set-strategy is not called: after the read, the world only
    gains the call of [fn]. *)
Theorem fn_failure_is_surfaced this args w k w' e :
  reads self args w k VUndefined w' ->
  fn_apply (fn self) this args = Throw e ->
  cache self this args w = (Throw e, after (EvFn this args) w').
Proof.
  intros Hreads Hfn.
  rewrite (cache_miss_run self this args w k w' Hreads).
  rewrite bind_run, fn_apply_run, Hfn. reflexivity.
Qed.

(** X20.  When a user-supplied get-strategy throws, [get] and a call
    throw the same, and the call does not fall back on [fn]. *)
Theorem getter_failure_is_surfaced this args w k KV w1 (g : Getter S) e s' :
  getter self = customGet g ->
  computeKey self args = Normal (Key k) ->
  resolveKV self w = (Normal KV, w1) ->
  g k (store w1) = (Throw e, s') ->
  (get self args w).1 = Throw e /\
  (cache self this args w).1 = Throw e /\
  count_events is_fn (journal (cache self this args w).2) =
  count_events is_fn (journal w).
Proof.
  intros Hg Hk Hr Hthrow.
  assert (Hcall : call_getter self k w1 =
            (Throw e, {| runtimeCache := runtimeCache w1;
                         journal := journal w1; store := s' |})).
  { unfold call_getter, on_store. rewrite Hg, Hthrow. reflexivity. }
  pose proof (same_fn_calls_resolveKV self w) as H1. rewrite Hr in H1.
  unfold same_fn_calls in H1. cbn [snd] in H1.
  split; [|split].
  - unfold get. rewrite bind_run, lift_run, Hk, bind_run, Hr, Hcall. reflexivity.
  - unfold cache.
    rewrite bind_run, lift_run, Hk, bind_run, Hr, bind_run, Hcall. reflexivity.
  - unfold cache.
    rewrite bind_run, lift_run, Hk, bind_run, Hr, bind_run, Hcall. exact H1.
Qed.

(** X21.  [set] returns what a user-supplied set-strategy returns, and
    throws what it throws, where with the default one it returns
    [undefined]. *)
Theorem set_returns_what_the_setter_returns args v w k KV w1 (f : Setter S) r s' :
  setter self = customSet f ->
  v <> VUndefined ->
  computeKey self args = Normal (Key k) ->
  resolveKV self w = (Normal KV, w1) ->
  f k v (ttl self) (store w1) = (r, s') ->
  (set self (args ++ [v]) w).1 = r.
Proof.
  intros Hf Hv Hk Hr Hcall.
  assert (Hu : is_undefined v = false) by (destruct v; cbn; congruence).
  unfold set. cbv zeta.
  rewrite List.last_last, List.removelast_last.
  rewrite bind_run, lift_run, Hk, Hu, bind_run, Hr.
  unfold call_setter, on_store. rewrite Hf, Hcall. reflexivity.
Qed.

(** *** How the operations compose *)

Lemma defaultGet_run (k : string) w :
  defaultGet k w =
  let '(r, s) := kv_get k (store w) in
  (match r with
   | Normal (Some text) =>
       match JSON_parse text with Normal v => Normal v | Throw _ => Normal VUndefined end
   | _ => Normal VUndefined
   end,
   {| runtimeCache := runtimeCache w;
      journal := journal w ++ [EvGet k];
      store := s |}).
Proof.
  unfold defaultGet, try_catch. rewrite bind_run, KV_get_run.
  destruct (kv_get k (store w)) as [[[text|]|e] s]; cbn; try reflexivity.
  destruct (JSON_parse text); reflexivity.
Qed.

(** A call that misses, with the default strategies, when [put]
    returns. *)
Lemma miss_stores_run this args k r text w s0 s' :
  getter self = defaultGet_ ->
  setter self = defaultSet_ ->
  computeKey self args = Normal (Key k) ->
  bound self w = true ->
  kv_get k (store w) = (Normal None, s0) ->
  fn_apply (fn self) this args = Normal r ->
  r <> VUndefined ->
  JSON_stringify r = Normal text ->
  kv_put k text (Math_floor (ttl self)) s0 = (Normal tt, s') ->
  exists w2,
    cache self this args w = (Normal r, w2) /\
    bound self w2 = true /\
    store w2 = s' /\
    count_events is_fn (journal w2) = (count_events is_fn (journal w) + 1)%nat.
Proof.
  intros Hget Hset Hk Hb Hmiss Hfn Hr Hstr Hput.
  assert (Hu : is_undefined r = false) by (destruct r; cbn; congruence).
  destruct (resolveKV_bound self w Hb) as (KV & w1 & Hres & Hs1 & Hb1).
  pose proof (same_fn_calls_resolveKV self w) as Hc1. rewrite Hres in Hc1.
  unfold same_fn_calls in Hc1. cbn [snd] in Hc1.
  exists {| runtimeCache := runtimeCache w1;
            journal := ((journal w1 ++ [EvGet k]) ++ [EvFn this args]) ++
                       [EvPut k text (Math_floor (ttl self))];
            store := s' |}.
  split; [|split; [|split]].
  - unfold cache. rewrite bind_run, lift_run, Hk, bind_run, Hres, bind_run.
    unfold call_getter. rewrite Hget, defaultGet_run, Hs1, Hmiss. cbn.
    rewrite bind_run, fn_apply_run, Hfn, bind_run.
    unfold call_setter. rewrite Hset. unfold defaultSet. rewrite Hu.
    unfold try_catch. rewrite bind_run, lift_run, Hstr, bind_run, KV_put_run.
    cbn [store after]. rewrite Hput. reflexivity.
  - rewrite <- Hb1. now apply bound_runtimeCache.
  - reflexivity.
  - cbn [journal]. rewrite !count_events_app, Hc1. cbn.
    now rewrite !Nat.add_0_r.
Qed.

(** A call that finds a text that parses, with the default
    get-strategy. *)
Lemma hit_run this args k r text w s' :
  getter self = defaultGet_ ->
  computeKey self args = Normal (Key k) ->
  bound self w = true ->
  kv_get k (store w) = (Normal (Some text), s') ->
  JSON_parse text = Normal r ->
  r <> VUndefined ->
  exists w',
    cache self this args w = (Normal r, w') /\
    count_events is_fn (journal w') = count_events is_fn (journal w).
Proof.
  intros Hget Hk Hb Hread Hparse Hr.
  assert (Hu : is_undefined r = false) by (destruct r; cbn; congruence).
  destruct (resolveKV_bound self w Hb) as (KV & w1 & Hres & Hs1 & _).
  pose proof (same_fn_calls_resolveKV self w) as Hc1. rewrite Hres in Hc1.
  unfold same_fn_calls in Hc1. cbn [snd] in Hc1.
  eexists. split.
  - unfold cache. rewrite bind_run, lift_run, Hk, bind_run, Hres, bind_run.
    unfold call_getter. rewrite Hget, defaultGet_run, Hs1, Hread, Hparse, Hu.
    reflexivity.
  - cbn [journal]. rewrite count_events_app, Hc1. cbn. now rewrite Nat.add_0_r.
Qed.

(** X14.  Memoization at work, with the default strategies on a store that
    keeps what is put: when the key is not in the store and [fn] returns a
    value that survives [JSON], a call returns that value and a second call
    whose arguments derive the same key returns it too, [fn] having been
    called once in all. *)
Theorem miss_then_hit this1 args1 this2 args2 k r text w s0 :
  getter self = defaultGet_ ->
  setter self = defaultSet_ ->
  computeKey self args1 = Normal (Key k) ->
  computeKey self args2 = Normal (Key k) ->
  bound self w = true ->
  kv_get k (store w) = (Normal None, s0) ->
  fn_apply (fn self) this1 args1 = Normal r ->
  r <> VUndefined ->
  JSON_stringify r = Normal text ->
  JSON_parse text = Normal r ->
  (forall s, exists s',
     kv_put k text (Math_floor (ttl self)) s = (Normal tt, s') /\
     exists s'', kv_get k s' = (Normal (Some text), s'')) ->
  exists w',
    run_ops self [OpCache this1 args1; OpCache this2 args2] w =
    ([Normal r; Normal r], w') /\
    count_events is_fn (journal w') = (count_events is_fn (journal w) + 1)%nat.
Proof.
  intros Hget Hset Hk1 Hk2 Hb Hmiss Hfn Hr Hstr Hparse Hkeep.
  destruct (Hkeep s0) as (s' & Hput & s'' & Hread).
  destruct (miss_stores_run this1 args1 k r text w s0 s'
              Hget Hset Hk1 Hb Hmiss Hfn Hr Hstr Hput)
    as (w2 & Hfirst & Hb2 & Hs2 & Hc2).
  rewrite <- Hs2 in Hread.
  destruct (hit_run this2 args2 k r text w2 s'' Hget Hk2 Hb2 Hread Hparse Hr)
    as (w' & Hsecond & Hc').
  exists w'. split.
  - cbn [run_ops run_op]. rewrite Hfirst, Hsecond. reflexivity.
  - now rewrite Hc', Hc2.
Qed.

(** X15.  With a key that is a string, the entry is shared by all
    arguments: under the conditions of a miss followed by a hit, the value
    that [fn] returned for the arguments of the first call is what a second
    call returns for any other arguments, on which [fn] is not called. *)
Theorem string_key_is_shared_by_all_arguments
    (name : string) this1 args1 this2 args2 r text w s0 :
  keyGenerator self = KeyString name ->
  getter self = defaultGet_ ->
  setter self = defaultSet_ ->
  bound self w = true ->
  kv_get (prefix self +:+ name) (store w) = (Normal None, s0) ->
  fn_apply (fn self) this1 args1 = Normal r ->
  r <> VUndefined ->
  JSON_stringify r = Normal text ->
  JSON_parse text = Normal r ->
  (forall s, exists s',
     kv_put (prefix self +:+ name) text (Math_floor (ttl self)) s = (Normal tt, s') /\
     exists s'', kv_get (prefix self +:+ name) s' = (Normal (Some text), s'')) ->
  (forall args, computeKey self args = Normal (Key (prefix self +:+ name))) /\
  exists w',
    run_ops self [OpCache this1 args1; OpCache this2 args2] w =
    ([Normal r; Normal r], w') /\
    count_events is_fn (journal w') = (count_events is_fn (journal w) + 1)%nat.
Proof.
  intros Hkey Hget Hset Hb Hmiss Hfn Hr Hstr Hparse Hkeep.
  assert (Hk : forall args, computeKey self args = Normal (Key (prefix self +:+ name))).
  { intros args. unfold computeKey. now rewrite Hkey. }
  split; [exact Hk|].
  destruct (Hkeep s0) as (s' & Hput & s'' & Hread).
  destruct (miss_stores_run this1 args1 _ r text w s0 s'
              Hget Hset (Hk args1) Hb Hmiss Hfn Hr Hstr Hput)
    as (w2 & Hfirst & Hb2 & Hs2 & Hc2).
  rewrite <- Hs2 in Hread.
  destruct (hit_run this2 args2 _ r text w2 s'' Hget (Hk args2) Hb2 Hread Hparse Hr)
    as (w' & Hsecond & Hc').
  exists w'. split.
  - cbn [run_ops run_op]. rewrite Hfirst, Hsecond. reflexivity.
  - now rewrite Hc', Hc2.
Qed.

Lemma run_op_same_fn_calls op :
  (forall this args, op <> OpCache this args /\ op <> OpRaw this args) ->
  keeps same_fn_calls (run_op self op).
Proof.
  intros Hop.
  apply (run_op_keeps _ same_fn_calls_refl same_fn_calls_trans).
  - intros _. apply same_fn_calls_resolveKV.
  - intros this args [->| ->]; destruct (Hop this args); congruence.
  - intros k _ _. apply same_fn_calls_call_getter.
  - intros k v _ _. apply same_fn_calls_call_setter.
  - intros k _ _ w. rewrite KV_delete_run.
    destruct (kv_delete k (store w)). unfold same_fn_calls. cbn.
    rewrite count_events_app. cbn. lia.
Qed.

(** X12.  [clear] hands back the outcome of [delete] on the store, what
    it resolves to or what it throws; and [clear] invalidates: with the
    default get-strategy, on a store where a deleted key is no longer
    found, a [get] of the same arguments after it returns [undefined], and
    a call after it calls [fn] again. *)
Theorem clear_then_get_misses args k w :
  getter self = defaultGet_ ->
  computeKey self args = Normal (Key k) ->
  bound self w = true ->
  (clear self args w).1 = (kv_delete k (store w)).1 /\
  ((forall s, exists u s',
      kv_delete k s = (Normal u, s') /\
      exists s'', kv_get k s' = (Normal None, s'')) ->
   (get self args (clear self args w).2).1 = Normal VUndefined /\
   forall this,
     count_events is_fn (journal (cache self this args (clear self args w).2).2) =
     (count_events is_fn (journal w) + 1)%nat).
Proof.
  intros Hget Hk Hb.
  destruct (resolveKV_bound self w Hb) as (KV & w1 & Hres & Hs1 & Hb1).
  assert (Hclear : clear self args w = KV_delete k w1).
  { unfold clear. rewrite bind_run, lift_run, Hk, bind_run, Hres. reflexivity. }
  split.
  { rewrite Hclear, KV_delete_run, Hs1.
    destruct (kv_delete k (store w)). reflexivity. }
  intros Hgone.
  destruct (Hgone (store w1)) as (u & s' & Hdel & s'' & Hread).
  pose proof (run_op_same_fn_calls (OpClear args)) as Hsame.
  specialize (Hsame ltac:(intros; split; discriminate) w).
  unfold same_fn_calls in Hsame. cbn [run_op] in Hsame.
  set (w2 := {| runtimeCache := runtimeCache w1;
                journal := journal w1 ++ [EvDelete k];
                store := s' |}).
  assert (Hclear2 : clear self args w = (Normal u, w2)).
  { rewrite Hclear, KV_delete_run, Hdel. reflexivity. }
  rewrite Hclear2 in *. cbn [fst snd] in *.
  assert (Hb2 : bound self w2 = true).
  { rewrite (bound_runtimeCache self w1 w2); [exact Hb1 | reflexivity]. }
  destruct (resolveKV_bound self w2 Hb2) as (KV' & w3 & Hres3 & Hs3 & _).
  set (w4 := {| runtimeCache := runtimeCache w3;
                journal := journal w3 ++ [EvGet k];
                store := s'' |}).
  assert (Hgetter : call_getter self k w3 = (Normal VUndefined, w4)).
  { unfold call_getter. rewrite Hget, defaultGet_run, Hs3. cbn [store w2].
    rewrite Hread. reflexivity. }
  split.
  - unfold get. rewrite bind_run, lift_run, Hk, bind_run, Hres3, Hgetter.
    reflexivity.
  - intros this.
    assert (Hreads : reads self args w2 k VUndefined w4).
    { exists KV', w3. auto. }
    pose proof (reads_same_fn_calls args w2 k VUndefined w4 Hreads) as Hc.
    rewrite (cache_miss_run self this args w2 k w4 Hreads).
    clearbody w4. clearbody w2.
    rewrite bind_run, fn_apply_run.
    destruct (fn_apply (fn self) this args) as [r|e]; cbn [snd].
    + rewrite bind_run.
      pose proof (same_fn_calls_call_setter self k r (after (EvFn this args) w4)) as H3.
      destruct (call_setter self k r _) as [[u'|e] w5];
        unfold mret, M_ret; cbn [snd] in *; unfold same_fn_calls in H3;
        rewrite count_events_after in H3; cbn in H3; lia.
    + rewrite count_events_after. cbn. lia.
Qed.

(** X13.  When [delete] on the store throws, [clear] throws the same:
    unlike a failed [put] of [defaultSet], a failed [delete] is not
    caught. *)
Theorem clear_surfaces_delete_failure args k w KV w1 e s' :
  computeKey self args = Normal (Key k) ->
  resolveKV self w = (Normal KV, w1) ->
  kv_delete k (store w1) = (Throw e, s') ->
  (clear self args w).1 = Throw e.
Proof.
  intros Hk Hres Hdel. unfold clear.
  rewrite bind_run, lift_run, Hk, bind_run, Hres, KV_delete_run, Hdel.
  reflexivity.
Qed.

End MoreCalls.

(** ** The fake store, and the wrapper over it *)

Section MoreOnTheFake.

Context {platform : Platform}.
#[local] Existing Instance FakeKV_store.

(** The fake no longer finds what is deleted. *)
Lemma FakeKV_forgets (k : string) (s : FakeKV) :
  exists u s',
    kv_delete k s = (Normal u, s') /\
    exists s'', kv_get k s' = (Normal None, s'').
Proof.
  eexists _, _. split; [reflexivity|].
  eexists. cbn. unfold FakeKV_get. cbn. rewrite lookup_delete_eq. reflexivity.
Qed.

Lemma remembered_refl w : remembered w w.
Proof. exists []. cbn. now rewrite !app_nil_r. Qed.

Lemma remembered_trans w1 w2 w3 :
  remembered w1 w2 -> remembered w2 w3 -> remembered w1 w3.
Proof.
  intros (j1 & Hj1 & Hg1 & Hp1 & Hd1) (j2 & Hj2 & Hg2 & Hp2 & Hd2).
  exists (j1 ++ j2).
  assert (Hgets : forall a b, gets (a ++ b) = gets a ++ gets b).
  { induction a as [|[] a IH]; intros b; cbn; rewrite ?IH; reflexivity. }
  assert (Hputs : forall a b, puts (a ++ b) = puts a ++ puts b).
  { induction a as [|[] a IH]; intros b; cbn; rewrite ?IH; reflexivity. }
  assert (Hdeletes : forall a b, deletes (a ++ b) = deletes a ++ deletes b).
  { induction a as [|[] a IH]; intros b; cbn; rewrite ?IH; reflexivity. }
  rewrite Hj2, Hj1, Hg2, Hg1, Hp2, Hp1, Hd2, Hd1, Hgets, Hputs, Hdeletes.
  now rewrite <- !app_assoc.
Qed.

Lemma remembered_after e (w : World FakeKV) :
  is_store_call e = false -> remembered w (after e w).
Proof.
  intros He. exists [e].
  destruct e; try discriminate; cbn; now rewrite !app_nil_r.
Qed.

Lemma remembered_resolveKV (self : Instance FakeKV) :
  keeps remembered (resolveKV self).
Proof.
  intros w. destruct (runtimeCache w) as [m|] eqn:Hc.
  - rewrite (resolveKV_cached self w m Hc). cbn [snd].
    now apply remembered_after.
  - destruct cloudflare_workers as [m|e] eqn:Hm.
    + rewrite (resolveKV_imports self w m Hc Hm). cbn [snd].
      exists [EvImport; EvLookup (binding self)]. cbn.
      rewrite !app_nil_r. now rewrite <- app_assoc.
    + rewrite (resolveKV_import_fails self w e Hc Hm). cbn [snd].
      now apply remembered_after.
Qed.

Lemma remembered_call_getter (self : Instance FakeKV) k :
  getter self = defaultGet_ -> keeps remembered (call_getter self k).
Proof.
  intros Hg w. unfold call_getter. rewrite Hg, defaultGet_run. cbn.
  exists [EvGet k]. cbn. now rewrite !app_nil_r.
Qed.

Lemma remembered_call_setter (self : Instance FakeKV) k v :
  setter self = defaultSet_ -> keeps remembered (call_setter self k v).
Proof.
  intros Hs w. unfold call_setter. rewrite Hs. unfold defaultSet.
  destruct (is_undefined v); [apply remembered_refl|].
  unfold try_catch. rewrite bind_run, lift_run.
  destruct (JSON_stringify v) as [text|e]; [|apply remembered_refl].
  rewrite bind_run, KV_put_run. cbn.
  exists [EvPut k text (Math_floor (ttl self))]. cbn. now rewrite !app_nil_r.
Qed.

Lemma remembered_run_ops (self : Instance FakeKV) (ops : list Op) w :
  getter self = defaultGet_ ->
  setter self = defaultSet_ ->
  remembered w (run_ops self ops w).2.
Proof.
  intros Hg Hs. revert w. induction ops as [|op ops IH]; intros w; cbn.
  - apply remembered_refl.
  - assert (Hop : remembered w (run_op self op w).2).
    { apply (run_op_keeps self _ remembered_refl remembered_trans).
      - intros _. apply remembered_resolveKV.
      - intros this args _ w0. rewrite fn_apply_run. cbn [snd].
        now apply remembered_after.
      - intros k _ _. now apply remembered_call_getter.
      - intros k v _ _. now apply remembered_call_setter.
      - intros k _ _ w0. rewrite KV_delete_run. cbn.
        exists [EvDelete k]. cbn. now rewrite !app_nil_r. }
    destruct (run_op self op w) as [r w1]. cbn [snd] in Hop.
    specialize (IH w1). destruct (run_ops self ops w1) as [rs w2]. cbn [snd] in *.
    eapply remembered_trans; eassumption.
Qed.

(** X23.  With the default strategies, what the fake remembers of its
    calls is what the journal of the wrapper says: over any sequence of
    operations the fake's [getCalls], [putCalls] and [deleteCalls] grow by
    the [get]s, [put]s and [delete]s that the journal gains, in the same
    order, with the same keys, texts and TTLs; from a fresh instance over
    a fake just created, they are those of the journal. *)
Theorem fake_remembers_what_the_journal_says
    (self : Instance FakeKV) (ops : list Op) (w : World FakeKV) :
  getter self = defaultGet_ ->
  setter self = defaultSet_ ->
  remembered w (run_ops self ops w).2 /\
  let w' := (run_ops self ops (fresh createFakeKV)).2 in
  getCalls (store w') = gets (journal w') /\
  putCalls (store w') = puts (journal w') /\
  deleteCalls (store w') = deletes (journal w').
Proof.
  intros Hg Hs. split; [now apply remembered_run_ops|].
  destruct (remembered_run_ops self ops (fresh createFakeKV) Hg Hs)
    as (j & Hj & Hgets & Hputs & Hdeletes).
  cbn in Hj, Hgets, Hputs, Hdeletes. cbv zeta.
  rewrite Hj, Hgets, Hputs, Hdeletes. auto.
Qed.

End MoreOnTheFake.

(** ** The same, on the fixtures *)

Section MoreWitnesses.

(** [Factory(123)] and [Factory('x')] throw, and so does a bigint;
    [CloudflareKVCache()] is the [kvCache] of no options. *)
Lemma factory_accepts_objects_only_witness :
  CloudflareKVCache (S := FakeKV) (DataArgument (num 123)) =
    Throw (TypeError "`options` must be object!") /\
  CloudflareKVCache (S := FakeKV) (DataArgument (VStr "x")) =
    Throw (TypeError "`options` must be object!") /\
  CloudflareKVCache (S := FakeKV) (BigIntArgument 1) =
    Throw (TypeError "`options` must be object!") /\
  CloudflareKVCache (S := FakeKV) NoArgument = Normal (kvCache no_options).
Proof.
  split; [|split; [|split]].
  - apply (proj2 (proj1 (factory_accepts_objects_only (DataArgument (num 123))))).
    split; discriminate.
  - apply (proj2 (proj1 (factory_accepts_objects_only (DataArgument (VStr "x"))))).
    split; discriminate.
  - apply (proj2 (proj1 (factory_accepts_objects_only (BigIntArgument 1)))).
    split; discriminate.
  - apply (proj1 (proj2 (proj2 (proj2 (factory_accepts_objects_only NoArgument))))).
    left. reflexivity.
Defined.

(** [{ ttl: 60 }] with [{ key: 'fixed' }] is accepted. *)
Lemma kvCache_accepts_exactly_witness :
  is_Normal (kvCache ttl_60 one key_fixed) = true.
Proof.
  apply (proj2 (kvCache_accepts_exactly ttl_60 one key_fixed)).
  split; [left; reflexivity|]. split.
  - left. exists "fixed". split; [reflexivity | discriminate].
  - exists (Qc_of_Z 60). split; [reflexivity | discriminate].
Defined.

Lemma kvCache_instance_invariant_witness :
  fn prefixed_identity = identity /\
  binding prefixed_identity <> "" /\
  (Qc_of_Z 60 <= ttl prefixed_identity)%Qc /\
  60 <= Math_floor (ttl prefixed_identity) /\
  match keyGenerator prefixed_identity with
  | KeyString s => s <> ""
  | KeyFunction _ => True
  end.
Proof.
  exact (kvCache_instance_invariant ttl_61_8 identity key_fixed prefixed_identity
           eq_refl).
Defined.

(** [{ prefix: 123 }]: the prefix of the closure is empty. *)
Lemma prefix_coerced_never_rejected_witness :
  prefix (instance_of (kvCache ttl_60 one (with_prefix (num 123) key_fixed))) = "".
Proof.
  exact (proj2 (prefix_coerced_never_rejected ttl_60 one key_fixed (num 123))
           _ eq_refl).
Defined.

(** A ttl of 60 given to the factory only. *)
Lemma wrap_ttl_takes_precedence_witness :
  kvCache (with_ttl (num 60) no_options) one key_fixed =
  kvCache no_options one (with_ttl (num 60) key_fixed).
Proof.
  exact (proj2 (proj2 (wrap_ttl_takes_precedence no_options one key_fixed
                         (num 60) VUndefined)) eq_refl).
Defined.

(** [key: () => 123]: [get] throws and the world is as before. *)
Lemma key_error_stops_operation_witness :
  run_op (store_ops := FakeKV_store) (platform := test_platform)
    wrongly_keyed (OpGet []) empty_world =
  (Throw (TypeError "key function must return a string or false"), empty_world).
Proof.
  refine (proj2 (proj2 (key_error_stops_operation (store_ops := FakeKV_store)
                          (platform := test_platform) wrongly_keyed (OpGet []) []
                          empty_world eq_refl))
            key_123 (num 123) eq_refl eq_refl _ _); discriminate.
Defined.

Lemma store_calls_stay_well_keyed_witness :
  Forall (well_keyed keyed_identity)
    (journal (run_ops (store_ops := FakeKV_store) (platform := test_platform)
                keyed_identity
                [OpGet [num 7]; OpSet [num 7; num 777]; OpClear [num 7]]
                empty_world).2).
Proof.
  apply (store_calls_stay_well_keyed (store_ops := FakeKV_store)
           (platform := test_platform) keyed_identity).
  constructor.
Defined.

(** [get] with [key: () => false]. *)
Lemma unreached_store_is_untouched_witness :
  (run_op (store_ops := FakeKV_store) (platform := test_platform)
     bypassing_one (OpGet [VStr "anything"]) empty_world).2 = empty_world.
Proof.
  destruct (unreached_store_is_untouched (store_ops := FakeKV_store)
              (platform := test_platform) bypassing_one
              (OpGet [VStr "anything"]) empty_world eq_refl)
    as [Hw|(this & args & [Hop|[Hop _]] & _)];
    [exact Hw | discriminate Hop | discriminate Hop].
Defined.

(** A binding ['MISSING'] that the runtime does not have, and a binding
    to an object without [delete]. *)
Lemma unbound_store_fails_operation_witness :
  (run_op (store_ops := FakeKV_store) (platform := test_platform)
     missing_binding (OpCache VUndefined []) empty_world).1 =
    Throw (TypeError "KV binding not found or invalid for name: MISSING") /\
  (run_op (store_ops := FakeKV_store) (platform := half_bound_platform)
     fixed_one (OpGet []) empty_world).1 =
    Throw (TypeError "KV binding not found or invalid for name: KV").
Proof.
  split.
  - pose proof (unbound_store_fails_operation (store_ops := FakeKV_store)
                  (platform := test_platform) missing_binding
                  (OpCache VUndefined []) empty_world
                  {| env := {[ "KV" := a_store ]} |} eq_refl eq_refl eq_refl) as H.
    destruct (run_op _ _ _) as [r w']. exact (proj1 H).
  - pose proof (unbound_store_fails_operation (store_ops := FakeKV_store)
                  (platform := half_bound_platform) fixed_one
                  (OpGet []) empty_world
                  {| env := {[ "KV" := no_delete ]} |} eq_refl eq_refl eq_refl) as H.
    destruct (run_op _ _ _) as [r w']. exact (proj1 H).
Defined.

Lemma failed_import_is_not_memoized_witness :
  run_op (store_ops := FakeKV_store) (platform := offline_platform)
    fixed_one (OpGet []) empty_world =
  (Throw (OtherError "Cannot find module 'cloudflare:workers'"),
   after EvImport empty_world).
Proof.
  exact (proj1 (failed_import_is_not_memoized (store_ops := FakeKV_store)
                  (platform := offline_platform) fixed_one (OpGet []) empty_world
                  _ eq_refl eq_refl eq_refl)).
Defined.

(** [cache.clear()] on a seeded fake, then [cache.get()]. *)
Lemma clear_then_get_misses_witness :
  (clear (store_ops := FakeKV_delete_true) (platform := test_platform)
     fixed_one [] seeded_world).1 = Normal (VBool true) /\
  (clear (store_ops := FakeKV_store) (platform := test_platform)
     fixed_one [] seeded_world).1 = Normal VUndefined /\
  (get (store_ops := FakeKV_store) (platform := test_platform) fixed_one []
     (clear (store_ops := FakeKV_store) (platform := test_platform)
        fixed_one [] seeded_world).2).1 = Normal VUndefined.
Proof.
  pose proof (clear_then_get_misses (store_ops := FakeKV_store)
                (platform := test_platform) fixed_one [] "fixed"
                seeded_world eq_refl eq_refl eq_refl) as [Hclear Hget].
  pose proof (clear_then_get_misses (store_ops := FakeKV_delete_true)
                (platform := test_platform) fixed_one [] "fixed"
                seeded_world eq_refl eq_refl eq_refl) as [Htrue _].
  split; [|split].
  - rewrite Htrue. reflexivity.
  - rewrite Hclear. reflexivity.
  - refine (proj1 (Hget _)). intros s. apply FakeKV_forgets.
Defined.

Lemma clear_surfaces_delete_failure_witness :
  (clear (store_ops := FakeKV_delete_boom) (platform := test_platform)
     fixed_one [] empty_world).1 = Throw (OtherError "boom").
Proof.
  exact (clear_surfaces_delete_failure (store_ops := FakeKV_delete_boom)
           (platform := test_platform) fixed_one [] "fixed" empty_world
           (Some a_store)
           (resolveKV (platform := test_platform) fixed_one empty_world).2
           (OtherError "boom") createFakeKV eq_refl eq_refl eq_refl).
Defined.

(** Two calls of the identity wrapped with [key: (x) => `k:${x}`], on 7. *)
Lemma miss_then_hit_witness :
  exists w',
    run_ops (store_ops := FakeKV_store) (platform := test_platform) keyed_identity
      [OpCache VUndefined [num 7]; OpCache VUndefined [num 7]] empty_world =
    ([Normal (num 7); Normal (num 7)], w') /\
    count_events is_fn (journal w') = 1%nat.
Proof.
  refine (miss_then_hit (store_ops := FakeKV_store) (platform := test_platform)
            keyed_identity VUndefined [num 7] VUndefined [num 7] "p:k:7" (num 7) "7"
            empty_world (FakeKV_get "p:k:7" createFakeKV).2
            eq_refl eq_refl eq_refl eq_refl eq_refl eq_refl eq_refl _
            eq_refl eq_refl _).
  - discriminate.
  - intros s. apply FakeKV_keeps.
Defined.

(** The identity wrapped with [key: 'fixed'], called on 5 and then on 6:
    the second call returns 5. *)
Lemma string_key_is_shared_by_all_arguments_witness :
  exists w',
    run_ops (store_ops := FakeKV_store) (platform := test_platform) prefixed_identity
      [OpCache VUndefined [num 5]; OpCache VUndefined [num 6]] empty_world =
    ([Normal (num 5); Normal (num 5)], w') /\
    count_events is_fn (journal w') = 1%nat.
Proof.
  refine (proj2 (string_key_is_shared_by_all_arguments (store_ops := FakeKV_store)
                   (platform := test_platform) prefixed_identity "fixed"
                   VUndefined [num 5] VUndefined [num 6] (num 5) "5"
                   empty_world (FakeKV_get "p:fixed" createFakeKV).2
                   eq_refl eq_refl eq_refl eq_refl eq_refl eq_refl _
                   eq_refl eq_refl _)).
  - discriminate.
  - intros s. apply FakeKV_keeps.
Defined.

(** [async () => undefined] wrapped with [key: 'undef-test']: nothing is
    put. *)
Lemma undefined_result_is_not_stored_witness :
  (cache (store_ops := FakeKV_store) (platform := test_platform)
     undef_test VUndefined [] empty_world).1 = Normal VUndefined /\
  putCalls (store (cache (store_ops := FakeKV_store) (platform := test_platform)
                     undef_test VUndefined [] empty_world).2) = [].
Proof.
  pose (w1 := (resolveKV (platform := test_platform) undef_test empty_world).2).
  pose (w' := (call_getter (store_ops := FakeKV_store) (platform := test_platform)
                 undef_test "undef-test" w1).2).
  assert (Hreads : reads (store_ops := FakeKV_store) (platform := test_platform)
                     undef_test [] empty_world "undef-test" VUndefined w').
  { exists (Some a_store), w1. repeat split; vm_compute; reflexivity. }
  rewrite (undefined_result_is_not_stored (store_ops := FakeKV_store)
             (platform := test_platform) undef_test VUndefined [] empty_world
             "undef-test" w' eq_refl Hreads eq_refl).
  split; reflexivity.
Defined.

(** A wrapped function that throws. *)
Lemma fn_failure_is_surfaced_witness :
  (cache (store_ops := FakeKV_store) (platform := test_platform)
     fixed_failing VUndefined [] empty_world).1 = Throw (OtherError "boom") /\
  putCalls (store (cache (store_ops := FakeKV_store) (platform := test_platform)
                     fixed_failing VUndefined [] empty_world).2) = [].
Proof.
  pose (w1 := (resolveKV (platform := test_platform) fixed_failing empty_world).2).
  pose (w' := (call_getter (store_ops := FakeKV_store) (platform := test_platform)
                 fixed_failing "fixed" w1).2).
  assert (Hreads : reads (store_ops := FakeKV_store) (platform := test_platform)
                     fixed_failing [] empty_world "fixed" VUndefined w').
  { exists (Some a_store), w1. repeat split; vm_compute; reflexivity. }
  rewrite (fn_failure_is_surfaced (store_ops := FakeKV_store)
             (platform := test_platform) fixed_failing VUndefined [] empty_world
             "fixed" w' (OtherError "boom") Hreads eq_refl).
  split; reflexivity.
Defined.

(** [defaultSet] of 1, on the fake and on the fake whose [put] throws. *)
Lemma defaultSet_is_best_effort_witness :
  journal (defaultSet (store_ops := FakeKV_store) (platform := test_platform)
             "fixed" (num 1) (Qc_of_Z 60) empty_world).2 =
    [EvPut "fixed" "1" 60] /\
  journal (defaultSet (store_ops := FakeKV_put_boom) (platform := test_platform)
             "fixed" (num 1) (Qc_of_Z 60) empty_world).2 =
    [EvPut "fixed" "1" 60].
Proof.
  split.
  - pose proof (defaultSet_is_best_effort (store_ops := FakeKV_store)
                  (platform := test_platform) "fixed" (num 1) (Qc_of_Z 60)
                  empty_world) as H.
    destruct (defaultSet _ _ _ _) as [r w'].
    destruct H as (_ & _ & _ & _ & H).
    refine (proj1 (H "1" _ eq_refl)). discriminate.
  - pose proof (defaultSet_is_best_effort (store_ops := FakeKV_put_boom)
                  (platform := test_platform) "fixed" (num 1) (Qc_of_Z 60)
                  empty_world) as H.
    destruct (defaultSet _ _ _ _) as [r w'].
    destruct H as (_ & _ & _ & _ & H).
    refine (proj1 (H "1" _ eq_refl)). discriminate.
Defined.

(** [defaultGet] of a stored ['1'] and of a stored ['null']. *)
Lemma defaultGet_reads_the_key_once_witness :
  (defaultGet (store_ops := FakeKV_store) (platform := test_platform)
     "fixed" seeded_world).1 = Normal (num 1) /\
  (defaultGet (store_ops := FakeKV_store) (platform := test_platform)
     "bad" (fresh (seed "bad" "null" createFakeKV))).1 = Normal VNull.
Proof.
  split.
  - pose proof (defaultGet_reads_the_key_once (store_ops := FakeKV_store)
                  (platform := test_platform) "fixed" seeded_world) as H.
    destruct (defaultGet _ _) as [r w'].
    destruct H as (_ & _ & _ & H).
    exact (H "1" (num 1) _ eq_refl eq_refl).
  - pose proof (defaultGet_reads_the_key_once (store_ops := FakeKV_store)
                  (platform := test_platform) "bad"
                  (fresh (seed "bad" "null" createFakeKV))) as H.
    destruct (defaultGet _ _) as [r w'].
    destruct H as (_ & _ & _ & H).
    exact (H "null" VNull _ eq_refl eq_refl).
Defined.

(** A [get] option that throws. *)
Lemma getter_failure_is_surfaced_witness :
  (get (store_ops := FakeKV_store) (platform := test_platform)
     failing_get_one [] empty_world).1 = Throw (OtherError "boom") /\
  (cache (store_ops := FakeKV_store) (platform := test_platform)
     failing_get_one VUndefined [] empty_world).1 = Throw (OtherError "boom").
Proof.
  pose proof (getter_failure_is_surfaced (store_ops := FakeKV_store)
                (platform := test_platform) failing_get_one VUndefined []
                empty_world "fixed" (Some a_store)
                (resolveKV (platform := test_platform) failing_get_one empty_world).2
                failing_get (OtherError "boom") createFakeKV
                eq_refl eq_refl eq_refl eq_refl) as (Hget & Hcache & _).
  split; assumption.
Defined.

(** [set] with a [set] option that throws. *)
Lemma set_returns_what_the_setter_returns_witness :
  (set (store_ops := FakeKV_store) (platform := test_platform)
     failing_set_one ([] ++ [num 1]) empty_world).1 = Throw (OtherError "boom").
Proof.
  refine (set_returns_what_the_setter_returns (store_ops := FakeKV_store)
            (platform := test_platform) failing_set_one [] (num 1) empty_world
            "fixed" (Some a_store)
            (resolveKV (platform := test_platform) failing_set_one empty_world).2
            failing_set (Throw (OtherError "boom")) createFakeKV
            eq_refl _ eq_refl eq_refl eq_refl).
  discriminate.
Defined.

(** The calls of 'get returns undefined on miss, set stores value, clear
    deletes', as the fake remembers them and as the journal has them. *)
Lemma fake_remembers_what_the_journal_says_witness :
  let w' := (run_ops (store_ops := FakeKV_store) (platform := test_platform)
               keyed_identity
               [OpGet [num 7]; OpSet [num 7; num 777]; OpGet [num 7];
                OpClear [num 7]; OpGet [num 7]] (fresh createFakeKV)).2 in
  getCalls (store w') = gets (journal w') /\
  putCalls (store w') = puts (journal w') /\
  deleteCalls (store w') = deletes (journal w').
Proof.
  exact (proj2 (fake_remembers_what_the_journal_says (platform := test_platform)
                  keyed_identity
                  [OpGet [num 7]; OpSet [num 7; num 777]; OpGet [num 7];
                   OpClear [num 7]; OpGet [num 7]]
                  empty_world eq_refl eq_refl)).
Defined.

End MoreWitnesses.
